(** * imguiCef: the frame store, the browser lifecycle adapter and the
      texture upload path, embedded from [src/cef_client.cpp],
      [include/cef_client_impl.h], [src/cef_app.cpp] and
      [src/vulkan_renderer.cpp].

    The model is sequential: [std::mutex] and [std::lock_guard] serialise
    the methods of [CefRenderHandlerImpl], so each method is one atomic
    state transformer here. *)

From Stdlib Require Import ZArith Lia.
From stdpp Require Import base option list gmap.

(** ** A small state monad

    Member functions read and write the fields of [*this]; they are
    embedded as state transformers over a record of the fields. *)

Definition State (S A : Type) : Type := S → A * S.

#[global] Instance state_ret {S} : MRet (State S) := λ A a s, (a, s).
#[global] Instance state_bind {S} : MBind (State S) :=
  λ A B f m s, let (a, s') := m s in f a s'.

Definition get_state {S} : State S S := λ s, (s, s).
Definition put_state {S} (s : S) : State S unit := λ _, (tt, s).
Definition modify {S} (f : S → S) : State S unit := λ s, (tt, f s).
Definition when {S} (c : bool) (m : State S unit) : State S unit :=
  if c then m else mret tt.

(** [exec m s] is the object after running [m]; [eval m s] what it returns. *)
Definition exec {S A} (m : State S A) (s : S) : S := snd (m s).
Definition eval {S A} (m : State S A) (s : S) : A := fst (m s).

(** ** C++ scalar types *)

Module CInt.

Definition INT_MAX : Z := 2 ^ 31 - 1.
Definition INT_MIN : Z := - 2 ^ 31.

(** Two's-complement reduction of a mathematical result to [int]. *)
Definition wrap (z : Z) : Z := ((z + 2 ^ 31) mod 2 ^ 32 - 2 ^ 31)%Z.

(** [a * b] on [int]. *)
Definition mul (a b : Z) : Z := wrap (a * b).

(** Implicit conversion [int -> size_t] (64 bit). *)
Definition to_size_t (z : Z) : Z := (z mod 2 ^ 64)%Z.

(** Implicit conversion [int -> uint32_t]. *)
Definition to_uint32 (z : Z) : Z := (z mod 2 ^ 32)%Z.

Definition in_range (z : Z) : Prop := (INT_MIN ≤ z ≤ INT_MAX)%Z.

End CInt.

#[global] Arguments CInt.wrap : simpl never.
#[global] Arguments CInt.mul : simpl never.
#[global] Arguments CInt.to_size_t : simpl never.
#[global] Arguments CInt.to_uint32 : simpl never.

(** [uint8_t]: pixel bytes are only moved, never computed with. *)
Definition uint8_t : Type := Z.

(** ** std::vector<uint8_t> and memcpy *)

(** The argument of [m_Buffer.resize(width * height * 4)]: the product is
    computed on [int] and converted to [size_t]. *)
Definition frame_bytes (width height : Z) : nat :=
  Z.to_nat (CInt.to_size_t (CInt.mul (CInt.mul width height) 4)).

#[global] Arguments frame_bytes : simpl never.

(** The dimensions for which [width * height * 4] is computed without
    signed overflow and denotes a byte count. *)
Definition size_ok (width height : Z) : Prop :=
  (0 ≤ width * height * 4 ≤ CInt.INT_MAX)%Z.

(** [std::vector::resize(n)]: keeps the first [n] elements and
    value-initialises the new ones. *)
Definition vector_resize (n : nat) (v : list uint8_t) : list uint8_t :=
  resize n 0%Z v.

(** [std::memcpy(dst.data(), src, n)]: the first [n] bytes of [dst] are
    overwritten with those of [src]; [dst] keeps its size.  The caller
    owes [n] readable bytes in [src]. *)
Definition memcpy (dst src : list uint8_t) (n : nat) : list uint8_t :=
  imap (λ i d, if decide (i < n) then default d (src !! i) else d) dst.

(** ** CefRenderHandlerImpl: the frame store *)

Record CefRect := { rect_x : Z; rect_y : Z; rect_width : Z; rect_height : Z }.

Record CefRenderHandlerImpl := {
  m_Buffer : list uint8_t;
  m_Width : Z;
  m_Height : Z;
  m_IsDirty : bool
}.

Module RenderHandler.

Abbreviation Store := CefRenderHandlerImpl.

Definition set_dims (w h : Z) (s : Store) : Store :=
  {| m_Buffer := m_Buffer s; m_Width := w; m_Height := h;
     m_IsDirty := m_IsDirty s |}.
Definition set_buffer (b : list uint8_t) (s : Store) : Store :=
  {| m_Buffer := b; m_Width := m_Width s; m_Height := m_Height s;
     m_IsDirty := m_IsDirty s |}.
Definition set_dirty (d : bool) (s : Store) : Store :=
  {| m_Buffer := m_Buffer s; m_Width := m_Width s; m_Height := m_Height s;
     m_IsDirty := d |}.

(** [CefRenderHandlerImpl::CefRenderHandlerImpl(int width, int height)] *)
Definition new (width height : Z) : Store :=
  {| m_Buffer := vector_resize (frame_bytes width height) [];
     m_Width := width; m_Height := height; m_IsDirty := false |}.

(** [GetViewRect]: [rect = CefRect(0, 0, m_Width, m_Height)]. *)
Definition GetViewRect : State Store CefRect :=
  s ← get_state;
  mret {| rect_x := 0; rect_y := 0;
          rect_width := m_Width s; rect_height := m_Height s |}.

(** [OnPaint]: resize on a change of dimensions, copy the whole frame,
    raise the dirty flag. *)
Definition OnPaint (buffer : list uint8_t) (width height : Z)
  : State Store unit :=
  s ← get_state;
  when (bool_decide (width ≠ m_Width s) || bool_decide (height ≠ m_Height s))
    (modify (set_dims width height);;
     modify (λ s, set_buffer
               (vector_resize (frame_bytes width height) (m_Buffer s)) s));;
  modify (λ s, set_buffer
            (memcpy (m_Buffer s) buffer (frame_bytes width height)) s);;
  modify (set_dirty true).

(** One round of the conversion loop at index [i]:
    [data[i] = m_Buffer[i+2]; data[i+1] = m_Buffer[i+1];
     data[i+2] = m_Buffer[i]; data[i+3] = m_Buffer[i+3]]. *)
Definition read_buffer (j : nat) : State Store uint8_t :=
  s ← get_state; mret (m_Buffer s !!! j).

Definition convert_pixel (i : nat) (data : list uint8_t)
  : State Store (list uint8_t) :=
  r ← read_buffer (i + 2);
  let data := <[i := r]> data in
  g ← read_buffer (i + 1);
  let data := <[i + 1 := g]> data in
  b ← read_buffer i;
  let data := <[i + 2 := b]> data in
  a ← read_buffer (i + 3);
  mret (<[i + 3 := a]> data).

(** [for (size_t i = 0; i < m_Buffer.size(); i += 4)], unrolled over the
    number of rounds left. *)
Fixpoint convert_loop (rounds i : nat) (data : list uint8_t)
  : State Store (list uint8_t) :=
  match rounds with
  | O => mret data
  | S rounds' =>
      data' ← convert_pixel i data;
      convert_loop rounds' (i + 4) data'
  end.

(** The loop runs once for every [i = 0, 4, 8, ...] below the size. *)
Definition loop_rounds (size : nat) : nat := (size + 3) / 4.

(** [GetTextureData(data, width, height)]: the three reference
    parameters are returned as the result. *)
Definition GetTextureData (data : list uint8_t)
  : State Store (list uint8_t * Z * Z) :=
  s ← get_state;
  let width := m_Width s in
  let height := m_Height s in
  let data := vector_resize (length (m_Buffer s)) data in
  data ← convert_loop (loop_rounds (length (m_Buffer s))) 0 data;
  mret (data, width, height).

(** [bool IsDirty() const { return m_IsDirty; }] *)
Definition IsDirty : State Store bool :=
  s ← get_state; mret (m_IsDirty s).

(** [void ClearDirty() { m_IsDirty = false; }] *)
Definition ClearDirty : State Store unit :=
  modify (set_dirty false).

(** [Resize(int width, int height)] *)
Definition Resize (width height : Z) : State Store unit :=
  modify (set_dims width height);;
  modify (λ s, set_buffer
            (vector_resize (frame_bytes width height) (m_Buffer s)) s).

(** Where byte [k] of the converted frame comes from: bytes 0 and 2 of
    every pixel trade places, bytes 1 and 3 stay. *)
Definition swap_index (k : nat) : nat :=
  match k mod 4 with
  | 0 => k + 2
  | 2 => k - 2
  | _ => k
  end.

(** The public operations, as a caller issues them. *)
Inductive Op :=
| OpGetViewRect
| OpOnPaint (buffer : list uint8_t) (width height : Z)
| OpGetTextureData (data : list uint8_t)
| OpIsDirty
| OpClearDirty
| OpResize (width height : Z).

Definition step (op : Op) (s : Store) : Store :=
  match op with
  | OpGetViewRect => exec GetViewRect s
  | OpOnPaint buffer width height => exec (OnPaint buffer width height) s
  | OpGetTextureData data => exec (GetTextureData data) s
  | OpIsDirty => exec IsDirty s
  | OpClearDirty => exec ClearDirty s
  | OpResize width height => exec (Resize width height) s
  end.

Definition run (ops : list Op) (s : Store) : Store :=
  foldl (λ s op, step op s) s ops.

(** Operations whose size computation stays inside [int]. *)
Definition op_ok (op : Op) : Prop :=
  match op with
  | OpOnPaint _ width height | OpResize width height => size_ok width height
  | _ => True
  end.

(** The backing buffer holds exactly one frame of the stored size. *)
Definition buffer_inv (s : Store) : Prop :=
  Z.of_nat (length (m_Buffer s)) = (m_Width s * m_Height s * 4)%Z.

(** The stores a program can hold: constructed, then operated on. *)
Inductive reachable : Store → Prop :=
| reachable_new w h : size_ok w h → reachable (new w h)
| reachable_step op s : op_ok op → reachable s → reachable (step op s).

(** Operations that leave the stored dimensions at [w x h]. *)
Definition keeps_dims (w h : Z) (op : Op) : bool :=
  match op with
  | OpOnPaint _ w' h' | OpResize w' h' =>
      bool_decide (w' = w) && bool_decide (h' = h)
  | _ => true
  end.

End RenderHandler.

(** ** CefClientImpl: the browser lifecycle adapter *)

(** [CefRefPtr<T>]: a counted reference, [None] when it holds [nullptr].
    Objects are named by an identity. *)
Definition CefRefPtr : Type := option nat.

Module Client.

Record CefClientImpl := {
  m_RenderHandler : CefRefPtr;
  m_Browser : CefRefPtr
}.

(** [CefClientImpl::CefClientImpl(renderHandler)]: [m_Browser] is
    default-constructed, that is, null. *)
Definition new (renderHandler : CefRefPtr) : CefClientImpl :=
  {| m_RenderHandler := renderHandler; m_Browser := None |}.

(** [OnAfterCreated(browser)]: [m_Browser = browser]. *)
Definition OnAfterCreated (browser : CefRefPtr) : State CefClientImpl unit :=
  modify (λ c, {| m_RenderHandler := m_RenderHandler c; m_Browser := browser |}).

(** [OnBeforeClose(browser)]: [m_Browser = nullptr]. *)
Definition OnBeforeClose (browser : CefRefPtr) : State CefClientImpl unit :=
  modify (λ c, {| m_RenderHandler := m_RenderHandler c; m_Browser := None |}).

(** [GetBrowser() const { return m_Browser; }] *)
Definition GetBrowser : State CefClientImpl CefRefPtr :=
  c ← get_state; mret (m_Browser c).

(** [GetRenderHandler() { return m_RenderHandler; }] *)
Definition GetRenderHandler : State CefClientImpl CefRefPtr :=
  c ← get_state; mret (m_RenderHandler c).

(** What reaches the client: the two lifecycle notifications of the
    engine, and the accessors the UI calls every frame. *)
Inductive Event :=
| EvAfterCreated (browser : CefRefPtr)
| EvBeforeClose (browser : CefRefPtr)
| EvGetBrowser
| EvGetRenderHandler.

Definition step (e : Event) (c : CefClientImpl) : CefClientImpl :=
  match e with
  | EvAfterCreated b => exec (OnAfterCreated b) c
  | EvBeforeClose b => exec (OnBeforeClose b) c
  | EvGetBrowser => exec GetBrowser c
  | EvGetRenderHandler => exec GetRenderHandler c
  end.

Definition run (es : list Event) (c : CefClientImpl) : CefClientImpl :=
  foldl (λ c e, step e c) c es.

Definition is_created (e : Event) : bool :=
  match e with EvAfterCreated _ => true | _ => false end.
Definition is_close (e : Event) : bool :=
  match e with EvBeforeClose _ => true | _ => false end.

End Client.

(** ** The Vulkan device, as far as the texture path drives it *)

Definition VkHandle : Type := Z.
Definition VK_NULL_HANDLE : VkHandle := 0%Z.

Inductive VkImageLayout :=
| VK_IMAGE_LAYOUT_UNDEFINED
| VK_IMAGE_LAYOUT_TRANSFER_DST_OPTIMAL
| VK_IMAGE_LAYOUT_SHADER_READ_ONLY_OPTIMAL.

(** The API calls of the texture path, with the handles they take and
    return.  A creation call that fails returns [VK_NULL_HANDLE]. *)
Inductive VkCall :=
| vkCreateBuffer (size : Z)
| vkDestroyBuffer
| vkCreateImage (width height : Z) (image : VkHandle)
| vkAllocateMemory (memory : VkHandle)
| vkDestroyImage (image : VkHandle)
| vkFreeMemory (memory : VkHandle)
| vkCmdPipelineBarrier (image : VkHandle) (oldLayout newLayout : VkImageLayout)
| vkCmdCopyBufferToImage (image : VkHandle) (width height : Z)
| vkQueueSubmit (fenced : bool)
| vkQueueWaitIdle
| vkWaitForFences
| vkDeviceWaitIdle
| vkCreateImageView (image view : VkHandle)
| vkDestroyImageView (view : VkHandle)
| vkCreateSampler (sampler : VkHandle)
| vkCmdBindDescriptorSets (set : VkHandle)
| ImGui_ImplVulkan_AddTexture (sampler view set : VkHandle).

(** Whether the driver grants the creation requests of one texture
    (re)creation.  The program cannot choose these; they are inputs. *)
Record DriverAnswers := {
  image_created : bool;
  memory_allocated : bool;
  view_created : bool;
  sampler_created : bool
}.

Definition all_granted : DriverAnswers :=
  {| image_created := true; memory_allocated := true;
     view_created := true; sampler_created := true |}.

(** The device: a supply of fresh handles, the live images with their
    extent, the live views with their image, and the calls made so far,
    oldest first. *)
Record Device := {
  next_handle : VkHandle;
  images : gmap Z (Z * Z);
  views : gmap Z Z;
  calls : list VkCall
}.

Module Vk.

Definition initial : Device :=
  {| next_handle := 1%Z; images := ∅; views := ∅; calls := [] |}.

Definition call (c : VkCall) : State Device unit :=
  modify (λ d, {| next_handle := next_handle d; images := images d;
                  views := views d; calls := calls d ++ [c] |}).

Definition fresh : State Device VkHandle :=
  d ← get_state;
  put_state {| next_handle := (next_handle d + 1)%Z; images := images d;
               views := views d; calls := calls d |};;
  mret (next_handle d).

Definition set_images (f : gmap Z (Z * Z) → gmap Z (Z * Z)) : State Device unit :=
  modify (λ d, {| next_handle := next_handle d; images := f (images d);
                  views := views d; calls := calls d |}).

Definition set_views (f : gmap Z Z → gmap Z Z) : State Device unit :=
  modify (λ d, {| next_handle := next_handle d; images := images d;
                  views := f (views d); calls := calls d |}).

Definition DestroyImageView (view : VkHandle) : State Device unit :=
  call (vkDestroyImageView view);; set_views (delete view).

Definition DestroyImage (image : VkHandle) : State Device unit :=
  call (vkDestroyImage image);; set_images (delete image).

Definition FreeMemory (memory : VkHandle) : State Device unit :=
  call (vkFreeMemory memory).

(** Classification of calls, for counting and for ordering properties. *)
Definition is_create_image (c : VkCall) : bool :=
  match c with vkCreateImage _ _ _ => true | _ => false end.

Definition is_update_barrier (c : VkCall) : bool :=
  match c with
  | vkCmdPipelineBarrier _ VK_IMAGE_LAYOUT_SHADER_READ_ONLY_OPTIMAL _ => true
  | _ => false
  end.

Definition is_wait (c : VkCall) : bool :=
  match c with
  | vkQueueWaitIdle | vkWaitForFences | vkDeviceWaitIdle => true
  | _ => false
  end.

Definition is_destroy (c : VkCall) : bool :=
  match c with
  | vkDestroyImage _ | vkDestroyImageView _ => true
  | _ => false
  end.

Definition is_submit (c : VkCall) : bool :=
  match c with vkQueueSubmit _ => true | _ => false end.

Definition count (p : VkCall → bool) (log : list VkCall) : nat :=
  length (List.filter p log).

(** The recreation counter: every (re)creation asks for one image. *)
Definition recreations (d : Device) : nat := count is_create_image (calls d).

(** The in-place update counter: only the update path moves an image
    out of the shader-readable layout. *)
Definition in_place_updates (d : Device) : nat :=
  count is_update_barrier (calls d).

(** Wait-then-destroy: scanning the calls in order, [busy] tells whether
    work has been submitted since the last wait; an image or view may
    only be destroyed while nothing is outstanding. *)
Fixpoint destroys_after_wait (busy : bool) (log : list VkCall) : bool :=
  match log with
  | [] => true
  | c :: log' =>
      if is_submit c then destroys_after_wait true log'
      else if is_wait c then destroys_after_wait false log'
      else if is_destroy c then negb busy && destroys_after_wait busy log'
      else destroys_after_wait busy log'
  end.

(** [d'] continues [d]: its calls are those of [d] followed by [rest]. *)
Definition continues (d d' : Device) (rest : list VkCall) : Prop :=
  calls d' = calls d ++ rest.

End Vk.

(** ** VulkanRenderer: the texture methods and the frame brackets *)

Module VulkanRenderer.

(** [VkDeviceSize imageSize = width * height * 4] on [uint32_t]. *)
Definition imageSize (width height : Z) : Z :=
  CInt.to_uint32 (CInt.to_uint32 (width * height) * 4).

#[global] Arguments imageSize : simpl never.

(** The staged upload shared by creation and update: barrier to
    transfer-writable, copy, barrier to shader-readable, submit, wait for
    the queue, release the staging buffer.  The staging buffer's own
    memory and the one-shot command buffer go with [vkCreateBuffer] and
    [vkDestroyBuffer] here. *)
Definition upload (image : VkHandle) (from : VkImageLayout) (width height : Z)
  : State Device unit :=
  Vk.call (vkCmdPipelineBarrier image from VK_IMAGE_LAYOUT_TRANSFER_DST_OPTIMAL);;
  Vk.call (vkCmdCopyBufferToImage image width height);;
  Vk.call (vkCmdPipelineBarrier image VK_IMAGE_LAYOUT_TRANSFER_DST_OPTIMAL
             VK_IMAGE_LAYOUT_SHADER_READ_ONLY_OPTIMAL);;
  Vk.call (vkQueueSubmit false);;
  Vk.call vkQueueWaitIdle;;
  Vk.call vkDestroyBuffer.

(** [CreateTextureImage(uint32_t width, uint32_t height, data)]: returns
    [VK_NULL_HANDLE] when [vkCreateImage] or [vkAllocateMemory] fails. *)
Definition CreateTextureImage (drv : DriverAnswers) (width height : Z)
    (data : list uint8_t) : State Device VkHandle :=
  let width := CInt.to_uint32 width in
  let height := CInt.to_uint32 height in
  Vk.call (vkCreateBuffer (imageSize width height));;
  if image_created drv then
    textureImage ← Vk.fresh;
    Vk.call (vkCreateImage width height textureImage);;
    Vk.set_images (<[textureImage := (width, height)]>);;
    if memory_allocated drv then
      textureImageMemory ← Vk.fresh;
      Vk.call (vkAllocateMemory textureImageMemory);;
      upload textureImage VK_IMAGE_LAYOUT_UNDEFINED width height;;
      mret textureImage
    else
      Vk.call (vkAllocateMemory VK_NULL_HANDLE);;
      Vk.DestroyImage textureImage;;
      mret VK_NULL_HANDLE
  else
    Vk.call (vkCreateImage width height VK_NULL_HANDLE);;
    mret VK_NULL_HANDLE.

(** [UpdateTextureImage(image, width, height, data)] *)
Definition UpdateTextureImage (image : VkHandle) (width height : Z)
    (data : list uint8_t) : State Device unit :=
  let width := CInt.to_uint32 width in
  let height := CInt.to_uint32 height in
  Vk.call (vkCreateBuffer (imageSize width height));;
  upload image VK_IMAGE_LAYOUT_SHADER_READ_ONLY_OPTIMAL width height.

(** [CreateImageView(image, format)]: [VK_NULL_HANDLE] on failure. *)
Definition CreateImageView (drv : DriverAnswers) (image : VkHandle)
  : State Device VkHandle :=
  if view_created drv then
    imageView ← Vk.fresh;
    Vk.call (vkCreateImageView image imageView);;
    Vk.set_views (<[imageView := image]>);;
    mret imageView
  else
    Vk.call (vkCreateImageView image VK_NULL_HANDLE);;
    mret VK_NULL_HANDLE.

(** [CreateTextureSampler()]: [VK_NULL_HANDLE] on failure. *)
Definition CreateTextureSampler (drv : DriverAnswers) : State Device VkHandle :=
  if sampler_created drv then
    sampler ← Vk.fresh;
    Vk.call (vkCreateSampler sampler);;
    mret sampler
  else
    Vk.call (vkCreateSampler VK_NULL_HANDLE);;
    mret VK_NULL_HANDLE.

(** [ImGui_ImplVulkan_AddTexture(sampler, view, layout)]: a fresh
    descriptor set bound to the view. *)
Definition AddTexture (sampler view : VkHandle) : State Device VkHandle :=
  set ← Vk.fresh;
  Vk.call (ImGui_ImplVulkan_AddTexture sampler view set);;
  mret set.

(** [BeginFrame()]: waits for the fence of the previous submission. *)
Definition BeginFrame : State Device unit :=
  Vk.call vkWaitForFences.

(** [ImGui_ImplVulkan_RenderDrawData]: binds every texture drawn. *)
Definition RenderDrawData (drawn : list VkHandle) : State Device unit :=
  λ d, (tt, foldl (λ d set, exec (Vk.call (vkCmdBindDescriptorSets set)) d) d drawn).

(** [EndFrame()]: submits the frame's command buffer with the fence. *)
Definition EndFrame : State Device unit :=
  Vk.call (vkQueueSubmit true).

End VulkanRenderer.

(** ** Application: the texture upload bridge and the frame loop *)

Module App.

Record Application := {
  m_Renderer : Device;
  m_RenderHandler : CefRenderHandlerImpl;
  m_Client : Client.CefClientImpl;
  m_CefTextureImage : VkHandle;
  m_CefTextureMemory : VkHandle;
  m_CefTextureView : VkHandle;
  m_CefTextureSampler : VkHandle;
  m_CefDescriptorSet : VkHandle;
  m_BrowserWidth : Z;
  m_BrowserHeight : Z
}.

(** Running a method of a member object inside the application. *)
Definition on_renderer {A} (m : State Device A) : State Application A :=
  λ app, let (a, d) := m (m_Renderer app) in
    (a, {| m_Renderer := d; m_RenderHandler := m_RenderHandler app;
           m_Client := m_Client app;
           m_CefTextureImage := m_CefTextureImage app;
           m_CefTextureMemory := m_CefTextureMemory app;
           m_CefTextureView := m_CefTextureView app;
           m_CefTextureSampler := m_CefTextureSampler app;
           m_CefDescriptorSet := m_CefDescriptorSet app;
           m_BrowserWidth := m_BrowserWidth app;
           m_BrowserHeight := m_BrowserHeight app |}).

Definition on_handler {A} (m : State CefRenderHandlerImpl A)
  : State Application A :=
  λ app, let (a, h) := m (m_RenderHandler app) in
    (a, {| m_Renderer := m_Renderer app; m_RenderHandler := h;
           m_Client := m_Client app;
           m_CefTextureImage := m_CefTextureImage app;
           m_CefTextureMemory := m_CefTextureMemory app;
           m_CefTextureView := m_CefTextureView app;
           m_CefTextureSampler := m_CefTextureSampler app;
           m_CefDescriptorSet := m_CefDescriptorSet app;
           m_BrowserWidth := m_BrowserWidth app;
           m_BrowserHeight := m_BrowserHeight app |}).

Definition set_CefTextureImage (image : VkHandle) : State Application unit :=
  modify (λ app,
    {| m_Renderer := m_Renderer app; m_RenderHandler := m_RenderHandler app;
       m_Client := m_Client app;
       m_CefTextureImage := image;
       m_CefTextureMemory := m_CefTextureMemory app;
       m_CefTextureView := m_CefTextureView app;
       m_CefTextureSampler := m_CefTextureSampler app;
       m_CefDescriptorSet := m_CefDescriptorSet app;
       m_BrowserWidth := m_BrowserWidth app;
       m_BrowserHeight := m_BrowserHeight app |}).

Definition set_CefTextureView (view : VkHandle) : State Application unit :=
  modify (λ app,
    {| m_Renderer := m_Renderer app; m_RenderHandler := m_RenderHandler app;
       m_Client := m_Client app;
       m_CefTextureImage := m_CefTextureImage app;
       m_CefTextureMemory := m_CefTextureMemory app;
       m_CefTextureView := view;
       m_CefTextureSampler := m_CefTextureSampler app;
       m_CefDescriptorSet := m_CefDescriptorSet app;
       m_BrowserWidth := m_BrowserWidth app;
       m_BrowserHeight := m_BrowserHeight app |}).

Definition set_CefTextureSampler (sampler : VkHandle) : State Application unit :=
  modify (λ app,
    {| m_Renderer := m_Renderer app; m_RenderHandler := m_RenderHandler app;
       m_Client := m_Client app;
       m_CefTextureImage := m_CefTextureImage app;
       m_CefTextureMemory := m_CefTextureMemory app;
       m_CefTextureView := m_CefTextureView app;
       m_CefTextureSampler := sampler;
       m_CefDescriptorSet := m_CefDescriptorSet app;
       m_BrowserWidth := m_BrowserWidth app;
       m_BrowserHeight := m_BrowserHeight app |}).

Definition set_CefDescriptorSet (set : VkHandle) : State Application unit :=
  modify (λ app,
    {| m_Renderer := m_Renderer app; m_RenderHandler := m_RenderHandler app;
       m_Client := m_Client app;
       m_CefTextureImage := m_CefTextureImage app;
       m_CefTextureMemory := m_CefTextureMemory app;
       m_CefTextureView := m_CefTextureView app;
       m_CefTextureSampler := m_CefTextureSampler app;
       m_CefDescriptorSet := set;
       m_BrowserWidth := m_BrowserWidth app;
       m_BrowserHeight := m_BrowserHeight app |}).

Definition set_BrowserSize (width height : Z) : State Application unit :=
  modify (λ app,
    {| m_Renderer := m_Renderer app; m_RenderHandler := m_RenderHandler app;
       m_Client := m_Client app;
       m_CefTextureImage := m_CefTextureImage app;
       m_CefTextureMemory := m_CefTextureMemory app;
       m_CefTextureView := m_CefTextureView app;
       m_CefTextureSampler := m_CefTextureSampler app;
       m_CefDescriptorSet := m_CefDescriptorSet app;
       m_BrowserWidth := width;
       m_BrowserHeight := height |}).

(** The application once [Initialize] has returned: the member
    initialisers of the class, a fresh device, and [CreateBrowser]'s
    handler of [m_BrowserWidth x m_BrowserHeight] with its client. *)
Definition initial : Application :=
  {| m_Renderer := Vk.initial;
     m_RenderHandler := RenderHandler.new 800 600;
     m_Client := Client.new (Some 0);
     m_CefTextureImage := VK_NULL_HANDLE;
     m_CefTextureMemory := VK_NULL_HANDLE;
     m_CefTextureView := VK_NULL_HANDLE;
     m_CefTextureSampler := VK_NULL_HANDLE;
     m_CefDescriptorSet := VK_NULL_HANDLE;
     m_BrowserWidth := 800;
     m_BrowserHeight := 600 |}.

(** "Clean up old resources": the view, then the image and its memory. *)
Definition release_texture : State Application unit :=
  app ← get_state;
  when (bool_decide (m_CefTextureView app ≠ VK_NULL_HANDLE))
    (on_renderer (Vk.DestroyImageView (m_CefTextureView app)));;
  when (bool_decide (m_CefTextureImage app ≠ VK_NULL_HANDLE))
    (on_renderer (Vk.DestroyImage (m_CefTextureImage app));;
     on_renderer (Vk.FreeMemory (m_CefTextureMemory app))).

(** "Create new texture" and "Update descriptor set for ImGui". *)
Definition create_texture (drv : DriverAnswers) (width height : Z)
    (textureData : list uint8_t) : State Application unit :=
  image ← on_renderer
            (VulkanRenderer.CreateTextureImage drv width height textureData);
  set_CefTextureImage image;;
  app ← get_state;
  view ← on_renderer
           (VulkanRenderer.CreateImageView drv (m_CefTextureImage app));
  set_CefTextureView view;;
  app ← get_state;
  when (bool_decide (m_CefTextureSampler app = VK_NULL_HANDLE))
    (sampler ← on_renderer (VulkanRenderer.CreateTextureSampler drv);
     set_CefTextureSampler sampler);;
  app ← get_state;
  set ← on_renderer (VulkanRenderer.AddTexture (m_CefTextureSampler app)
                       (m_CefTextureView app));
  set_CefDescriptorSet set.

(** The branch of [UpdateCefTexture] that creates or recreates the
    texture. *)
Definition recreate (drv : DriverAnswers) (width height : Z)
    (textureData : list uint8_t) : State Application unit :=
  set_BrowserSize width height;;
  release_texture;;
  create_texture drv width height textureData.

(** The calls with which [release_texture] lets go of the texture held. *)
Definition release_calls (app : Application) : list VkCall :=
  (if bool_decide (m_CefTextureView app ≠ VK_NULL_HANDLE)
   then [vkDestroyImageView (m_CefTextureView app)] else []) ++
  (if bool_decide (m_CefTextureImage app ≠ VK_NULL_HANDLE)
   then [vkDestroyImage (m_CefTextureImage app);
         vkFreeMemory (m_CefTextureMemory app)] else []).

(** [Application::UpdateCefTexture()] *)
Definition UpdateCefTexture (drv : DriverAnswers) : State Application unit :=
  dirty ← on_handler RenderHandler.IsDirty;
  if negb dirty then mret tt else
  '(textureData, width, height) ← on_handler (RenderHandler.GetTextureData []);
  app ← get_state;
  (if bool_decide (m_CefTextureImage app = VK_NULL_HANDLE)
      || bool_decide (width ≠ m_BrowserWidth app)
      || bool_decide (height ≠ m_BrowserHeight app)
   then recreate drv width height textureData
   else on_renderer (VulkanRenderer.UpdateTextureImage
                       (m_CefTextureImage app) width height textureData));;
  on_handler RenderHandler.ClearDirty.

(** The condition under which [UpdateCefTexture] recreates. *)
Definition needs_recreation (app : Application) (width height : Z) : bool :=
  bool_decide (m_CefTextureImage app = VK_NULL_HANDLE)
  || bool_decide (width ≠ m_BrowserWidth app)
  || bool_decide (height ≠ m_BrowserHeight app).

(** A frame as the engine paints it. *)
Record Paint := { pixels : list uint8_t; width : Z; height : Z }.

(** [CefDoMessageLoopWork()]: the engine delivers its pending paint
    notifications to the handler. *)
Definition CefDoMessageLoopWork (pending : list Paint) : State Application unit :=
  on_handler (λ h,
    (tt, foldl (λ h p, exec (RenderHandler.OnPaint (pixels p) (width p) (height p)) h)
           h pending)).

(** One synchronisation of the texture with a newly painted frame. *)
Definition Sync (p : Paint) (drv : DriverAnswers) : State Application unit :=
  CefDoMessageLoopWork [p];; UpdateCefTexture drv.

Definition run_syncs (steps : list (Paint * DriverAnswers)) (app : Application)
  : Application :=
  foldl (λ app step, exec (Sync step.1 step.2) app) app steps.

(** [RenderUI()]: the image widget is drawn when a descriptor set is
    bound, the placeholder otherwise; the result lists the textures
    drawn. *)
Definition RenderUI : State Application (list VkHandle) :=
  app ← get_state;
  if bool_decide (m_CefDescriptorSet app ≠ VK_NULL_HANDLE)
  then mret [m_CefDescriptorSet app]
  else mret [].

(** One pass of the loop in [Application::Run()]. *)
Definition RunIteration (pending : list Paint) (drv : DriverAnswers)
  : State Application unit :=
  CefDoMessageLoopWork pending;;
  UpdateCefTexture drv;;
  on_renderer VulkanRenderer.BeginFrame;;
  drawn ← RenderUI;
  on_renderer (VulkanRenderer.RenderDrawData drawn);;
  on_renderer VulkanRenderer.EndFrame.

(** The extent of the texture the application holds, if any. *)
Definition texture_extent (app : Application) : option (Z * Z) :=
  if bool_decide (m_CefTextureImage app = VK_NULL_HANDLE) then None
  else images (m_Renderer app) !! m_CefTextureImage app.

(** What the application believes about its texture: a non-null image
    handle names a live image of [m_BrowserWidth x m_BrowserHeight]. *)
Definition texture_inv (app : Application) : Prop :=
  m_CefTextureImage app ≠ VK_NULL_HANDLE →
  images (m_Renderer app) !! m_CefTextureImage app
    = Some (m_BrowserWidth app, m_BrowserHeight app).

(** Frames the engine can deliver: positive dimensions whose byte count
    fits [int]. *)
Definition paint_ok (p : Paint) : Prop :=
  (0 < width p)%Z ∧ (0 < height p)%Z ∧ size_ok (width p) (height p).

End App.

(** * Further definitions

    The rest of the code around the texture path: the reference form of
    the pixel conversion, the bookkeeping of live resources, teardown,
    the device queries and the input forwarding. *)

(** ** The pixel conversion, pixel by pixel *)

(** Blue-green-red-alpha to red-green-blue-alpha on whole pixels; a
    trailing partial pixel is kept as it is. *)
Fixpoint bgra_to_rgba (l : list uint8_t) : list uint8_t :=
  match l with
  | b :: g :: r :: a :: rest => r :: g :: b :: a :: bgra_to_rgba rest
  | _ => l
  end.

(** ** The frame loop over several passes *)

Module Loop.
Import App.

(** [Application::Run()] while the window stays open: one entry per pass,
    holding the frames the engine paints during that pass and the
    driver's answers to its creation requests. *)
Definition run_iterations (passes : list (list Paint * DriverAnswers))
    (app : Application) : Application :=
  foldl (λ app pass, exec (RunIteration pass.1 pass.2) app) app passes.

(** The calls a pass makes outside [UpdateCefTexture]. *)
Definition is_frame_call (c : VkCall) : bool :=
  match c with
  | vkWaitForFences | vkCmdBindDescriptorSets _ | vkQueueSubmit _ => true
  | _ => false
  end.

Definition is_free_memory (c : VkCall) : bool :=
  match c with vkFreeMemory _ => true | _ => false end.

(** A call that is not a [vkFreeMemory] of actual memory. *)
Definition frees_nothing (c : VkCall) : Prop :=
  match c with vkFreeMemory memory => memory = VK_NULL_HANDLE | _ => True end.

Definition is_memory_allocated (c : VkCall) : bool :=
  match c with
  | vkAllocateMemory memory => bool_decide (memory ≠ VK_NULL_HANDLE)
  | _ => false
  end.

Definition is_sampler_created (c : VkCall) : bool :=
  match c with
  | vkCreateSampler sampler => bool_decide (sampler ≠ VK_NULL_HANDLE)
  | _ => false
  end.

Definition is_add_texture (c : VkCall) : bool :=
  match c with ImGui_ImplVulkan_AddTexture _ _ _ => true | _ => false end.

(** Nothing is live on the device but what the application holds: the
    only live image is [m_CefTextureImage], the only live view
    [m_CefTextureView], and a live handle is never null. *)
Definition holds_all_live (app : Application) : Prop :=
  (1 ≤ next_handle (m_Renderer app))%Z ∧
  (∀ k, is_Some (images (m_Renderer app) !! k) →
        k = m_CefTextureImage app ∧ k ≠ VK_NULL_HANDLE) ∧
  (∀ k, is_Some (views (m_Renderer app) !! k) →
        k = m_CefTextureView app ∧ k ≠ VK_NULL_HANDLE).

(** The counters kept by the calls logged so far: the image memory
    member is still null and no call has freed memory, at most one
    sampler has been created and it is the one held, and every image
    request came with one descriptor set. *)
Definition bookkeeping (app : Application) : Prop :=
  (1 ≤ next_handle (m_Renderer app))%Z ∧
  m_CefTextureMemory app = VK_NULL_HANDLE ∧
  Forall frees_nothing (calls (m_Renderer app)) ∧
  Vk.count is_sampler_created (calls (m_Renderer app)) =
    (if bool_decide (m_CefTextureSampler app ≠ VK_NULL_HANDLE) then 1 else 0) ∧
  Vk.count is_add_texture (calls (m_Renderer app)) =
    Vk.recreations (m_Renderer app).

End Loop.

(** ** Application::Cleanup *)

Module Teardown.
Import App.

(** The calls of [Application::Cleanup] and [VulkanRenderer::Cleanup], in
    the order of the source.  Calls on the texture are [VkCall]s; the
    others take handles the texture path never sees.  The loops over the
    framebuffers and the swapchain views are one entry each. *)
Inductive Call :=
| Vulkan (c : VkCall)
| vkDestroySampler (sampler : VkHandle)
| ImGui_ImplVulkan_Shutdown
| ImGui_ImplGlfw_Shutdown
| ImGui_DestroyContext
| vkDestroyDescriptorPool
| vkDestroySemaphore
| vkDestroyFence
| vkDestroyCommandPool
| vkDestroyFramebuffers
| vkDestroyRenderPass
| vkDestroySwapchainImageViews
| vkDestroySwapchainKHR
| vkDestroyDevice
| vkDestroySurfaceKHR
| vkDestroyInstance
| glfwDestroyWindow
| glfwTerminate
| CefShutdown.

(** [VulkanRenderer::Cleanup()] *)
Definition RendererCleanup : list Call :=
  [Vulkan vkDeviceWaitIdle; vkDestroyDescriptorPool;
   vkDestroySemaphore; vkDestroySemaphore; vkDestroyFence;
   vkDestroyCommandPool; vkDestroyFramebuffers; vkDestroyRenderPass;
   vkDestroySwapchainImageViews; vkDestroySwapchainKHR; vkDestroyDevice;
   vkDestroySurfaceKHR; vkDestroyInstance].

(** [Application::Cleanup()] on an application whose [Initialize]
    succeeded ([m_Renderer] and [m_Window] are set).  The result lists
    every call made; the device follows the calls on the texture.  The
    members holding the texture handles are not reset. *)
Definition Cleanup : State Application (list Call) :=
  on_renderer (Vk.call vkDeviceWaitIdle);;
  app ← get_state;
  let sampler_calls :=
    if bool_decide (m_CefTextureSampler app ≠ VK_NULL_HANDLE)
    then [vkDestroySampler (m_CefTextureSampler app)] else [] in
  when (bool_decide (m_CefTextureView app ≠ VK_NULL_HANDLE))
    (on_renderer (Vk.DestroyImageView (m_CefTextureView app)));;
  when (bool_decide (m_CefTextureImage app ≠ VK_NULL_HANDLE))
    (on_renderer (Vk.DestroyImage (m_CefTextureImage app));;
     on_renderer (Vk.FreeMemory (m_CefTextureMemory app)));;
  on_renderer (Vk.call vkDeviceWaitIdle);;
  mret ([Vulkan vkDeviceWaitIdle] ++ sampler_calls
        ++ map Vulkan (release_calls app)
        ++ [ImGui_ImplVulkan_Shutdown; ImGui_ImplGlfw_Shutdown;
            ImGui_DestroyContext]
        ++ RendererCleanup
        ++ [glfwDestroyWindow; glfwTerminate; CefShutdown]).

Definition is_submit (c : Call) : bool :=
  match c with Vulkan c => Vk.is_submit c | _ => false end.

End Teardown.

(** ** VulkanRenderer::FindMemoryType *)

Module Memory.

(** [VkPhysicalDeviceMemoryProperties], as far as the search reads it:
    the count and the property flags of each memory type. *)
Record VkPhysicalDeviceMemoryProperties := {
  memoryTypeCount : Z;
  memoryTypes : list Z
}.

(** [typeFilter & (1 << i)] as a condition: [1 << i] is computed on
    [int] and converted to [uint32_t] for the [&]. *)
Definition filter_bit (typeFilter i : Z) : bool :=
  negb (Z.land typeFilter (CInt.to_uint32 (CInt.wrap (Z.shiftl 1 i))) =? 0)%Z.

(** [(propertyFlags & properties) == properties] *)
Definition has_properties (propertyFlags properties : Z) : bool :=
  (Z.land propertyFlags properties =? properties)%Z.

(** The loop [for (uint32_t i = 0; i < memoryTypeCount; i++)], from
    index [i] with [remaining] rounds to go; [return 0] after the loop. *)
Fixpoint find_from (remaining : nat) (i : Z) (typeFilter properties : Z)
    (memProperties : VkPhysicalDeviceMemoryProperties) : Z :=
  match remaining with
  | O => 0
  | S remaining' =>
      if filter_bit typeFilter i
         && has_properties (memoryTypes memProperties !!! Z.to_nat i) properties
      then i
      else find_from remaining' (i + 1) typeFilter properties memProperties
  end.

Definition FindMemoryType (typeFilter properties : Z)
    (memProperties : VkPhysicalDeviceMemoryProperties) : Z :=
  find_from (Z.to_nat (memoryTypeCount memProperties)) 0
    typeFilter properties memProperties.

(** Memory type [i] is allowed by the filter and has every requested
    property. *)
Definition suitable (typeFilter properties : Z)
    (memProperties : VkPhysicalDeviceMemoryProperties) (i : Z) : Prop :=
  Z.testbit typeFilter i = true ∧
  ∀ b, (0 ≤ b)%Z → Z.testbit properties b = true →
       Z.testbit (memoryTypes memProperties !!! Z.to_nat i) b = true.

End Memory.

(** ** VulkanRenderer::SelectPhysicalDevice *)

Module DeviceSelection.

(** One enumerated device: its handle and, per queue family, the
    [queueFlags] and what [vkGetPhysicalDeviceSurfaceSupportKHR]
    answers for it. *)
Record PhysicalDevice := {
  device : VkHandle;
  queueFamilies : list (Z * bool)
}.

(** The two members the selection writes. *)
Record Selection := {
  m_PhysicalDevice : VkHandle;
  m_QueueFamily : Z
}.

(** [queueFamilies[i].queueFlags & VK_QUEUE_GRAPHICS_BIT && presentSupport] *)
Definition family_ok (VK_QUEUE_GRAPHICS_BIT : Z) (family : Z * bool) : bool :=
  negb (Z.land family.1 VK_QUEUE_GRAPHICS_BIT =? 0)%Z && family.2.

(** The inner loop, from family index [i]. *)
Fixpoint find_family (VK_QUEUE_GRAPHICS_BIT : Z) (i : Z)
    (families : list (Z * bool)) : option Z :=
  match families with
  | [] => None
  | family :: rest =>
      if family_ok VK_QUEUE_GRAPHICS_BIT family then Some i
      else find_family VK_QUEUE_GRAPHICS_BIT (i + 1) rest
  end.

(** The loop over the devices. *)
Fixpoint select_from (VK_QUEUE_GRAPHICS_BIT : Z) (devices : list PhysicalDevice)
  : State Selection bool :=
  match devices with
  | [] => mret false
  | dev :: rest =>
      match find_family VK_QUEUE_GRAPHICS_BIT 0 (queueFamilies dev) with
      | Some i =>
          put_state {| m_PhysicalDevice := device dev; m_QueueFamily := i |};;
          mret true
      | None => select_from VK_QUEUE_GRAPHICS_BIT rest
      end
  end.

(** [VulkanRenderer::SelectPhysicalDevice()], given what
    [vkEnumeratePhysicalDevices] lists. *)
Definition SelectPhysicalDevice (VK_QUEUE_GRAPHICS_BIT : Z)
    (devices : list PhysicalDevice) : State Selection bool :=
  if bool_decide (length devices = 0) then mret false
  else select_from VK_QUEUE_GRAPHICS_BIT devices.

End DeviceSelection.

(** ** Application::RenderUI: navigation and input forwarding *)

Module Input.
Import App.

(** The [float] arithmetic of the function.  Its operations are taken as
    they are: subtraction, the product with 120, the conversion to [int]
    and the comparison with [0.0f]. *)
Record FloatOps := {
  float : Type;
  fsub : float → float → float;
  fmul_int : float → Z → float;
  to_int : float → Z;
  is_zero : float → bool
}.

(** The modifier flags of the engine's headers. *)
Record EventFlags := {
  EVENTFLAG_CONTROL_DOWN : Z;
  EVENTFLAG_SHIFT_DOWN : Z;
  EVENTFLAG_ALT_DOWN : Z
}.

Inductive MouseButton := MBT_LEFT | MBT_RIGHT.

Record CefMouseEvent := { x : Z; y : Z; modifiers : Z }.

(** [CefKeyEvent] with [type = KEYEVENT_CHAR]. *)
Record CefKeyEvent := {
  character : Z;
  unmodified_character : Z;
  key_modifiers : Z
}.

(** What the function asks of the browser and its host. *)
Inductive BrowserCall :=
| LoadURL (url : list uint8_t)
| GoBack
| GoForward
| Reload
| SendMouseMoveEvent (event : CefMouseEvent) (mouseLeave : bool)
| SendMouseClickEvent (event : CefMouseEvent) (button : MouseButton)
    (mouseUp : bool) (clickCount : Z)
| SetFocus (focus : bool)
| SendMouseWheelEvent (event : CefMouseEvent) (deltaX deltaY : Z)
| SendKeyEvent (event : CefKeyEvent).

(** What the toolkit reports during one call of [RenderUI]: the results
    of the four buttons, the URL buffer after [InputText], the position
    of the image, and the [ImGuiIO] state read inside the hover test. *)
Record UiFrame (F : FloatOps) := {
  Button_Go : bool;
  Button_Back : bool;
  Button_Forward : bool;
  Button_Reload : bool;
  UrlBuffer : list uint8_t;
  CursorScreenPos : float F * float F;
  IsItemHovered : bool;
  MousePos : float F * float F;
  KeyCtrl : bool;
  KeyShift : bool;
  KeyAlt : bool;
  LeftClicked : bool;
  LeftReleased : bool;
  RightClicked : bool;
  RightReleased : bool;
  MouseWheel : float F;
  InputQueueCharacters : list Z
}.

Arguments Button_Go {F}.
Arguments Button_Back {F}.
Arguments Button_Forward {F}.
Arguments Button_Reload {F}.
Arguments UrlBuffer {F}.
Arguments CursorScreenPos {F}.
Arguments IsItemHovered {F}.
Arguments MousePos {F}.
Arguments KeyCtrl {F}.
Arguments KeyShift {F}.
Arguments KeyAlt {F}.
Arguments LeftClicked {F}.
Arguments LeftReleased {F}.
Arguments RightClicked {F}.
Arguments RightReleased {F}.
Arguments MouseWheel {F}.
Arguments InputQueueCharacters {F}.

(** A [CefRefPtr] in a condition. *)
Definition non_null (p : CefRefPtr) : bool :=
  match p with Some _ => true | None => false end.

(** [m_Client->GetBrowser()] *)
Definition GetBrowser (app : Application) : CefRefPtr :=
  eval Client.GetBrowser (m_Client app).

(** [modifiers = 0], then [|=] the flag of every key held. *)
Definition mouse_modifiers {F} (K : EventFlags) (ui : UiFrame F) : Z :=
  let modifiers := 0%Z in
  let modifiers :=
    if KeyCtrl ui then Z.lor modifiers (EVENTFLAG_CONTROL_DOWN K)
    else modifiers in
  let modifiers :=
    if KeyShift ui then Z.lor modifiers (EVENTFLAG_SHIFT_DOWN K)
    else modifiers in
  if KeyAlt ui then Z.lor modifiers (EVENTFLAG_ALT_DOWN K) else modifiers.

(** The mouse event: the position relative to the image, and the
    modifiers. *)
Definition mouse_event {F} (K : EventFlags) (ui : UiFrame F) : CefMouseEvent :=
  {| x := to_int F (fsub F (MousePos ui).1 (CursorScreenPos ui).1);
     y := to_int F (fsub F (MousePos ui).2 (CursorScreenPos ui).2);
     modifiers := mouse_modifiers K ui |}.

(** The four guarded commands under the URL field. *)
Definition navigation {F} (ui : UiFrame F) (app : Application)
  : list BrowserCall :=
  (if Button_Go ui && non_null (GetBrowser app)
   then [LoadURL (UrlBuffer ui)] else [])
  ++ (if Button_Back ui && non_null (GetBrowser app) then [GoBack] else [])
  ++ (if Button_Forward ui && non_null (GetBrowser app) then [GoForward] else [])
  ++ (if Button_Reload ui && non_null (GetBrowser app) then [Reload] else []).

(** The body of [if (ImGui::IsItemHovered() && m_Client->GetBrowser())]. *)
Definition forward_input {F} (K : EventFlags) (ui : UiFrame F)
  : list BrowserCall :=
  let event := mouse_event K ui in
  [SendMouseMoveEvent event false]
  ++ (if LeftClicked ui
      then [SendMouseClickEvent event MBT_LEFT false 1; SetFocus true] else [])
  ++ (if LeftReleased ui
      then [SendMouseClickEvent event MBT_LEFT true 1] else [])
  ++ (if RightClicked ui
      then [SendMouseClickEvent event MBT_RIGHT false 1] else [])
  ++ (if RightReleased ui
      then [SendMouseClickEvent event MBT_RIGHT true 1] else [])
  ++ (if negb (is_zero F (MouseWheel ui))
      then [SendMouseWheelEvent event 0
              (to_int F (fmul_int F (MouseWheel ui) 120))] else [])
  ++ map (λ c, SendKeyEvent {| character := c; unmodified_character := c;
                               key_modifiers := modifiers event |})
       (InputQueueCharacters ui).

(** [Application::RenderUI()]: the textures it draws and the calls it
    makes on the browser, in order. *)
Definition RenderUI {F} (K : EventFlags) (ui : UiFrame F) (app : Application)
  : list VkHandle * list BrowserCall :=
  let commands := navigation ui app in
  if bool_decide (m_CefDescriptorSet app ≠ VK_NULL_HANDLE) then
    ([m_CefDescriptorSet app],
     commands ++
     (if IsItemHovered ui && non_null (GetBrowser app)
      then forward_input K ui else []))
  else ([], commands).

Definition is_navigation (c : BrowserCall) : bool :=
  match c with
  | LoadURL _ | GoBack | GoForward | Reload => true
  | _ => false
  end.

Definition is_mouse_move (c : BrowserCall) : bool :=
  match c with SendMouseMoveEvent _ _ => true | _ => false end.

(** The key events among the calls, in order. *)
Definition key_events (calls : list BrowserCall) : list CefKeyEvent :=
  omap (λ c, match c with SendKeyEvent e => Some e | _ => None end) calls.

(** An instance of the arithmetic for examples: mouse positions and
    wheel steps that happen to be whole numbers. *)
Definition whole_numbers : FloatOps :=
  {| float := Z; fsub := Z.sub; fmul_int := Z.mul;
     to_int := λ z, z; is_zero := Z.eqb 0 |}.

(** The flag values of the engine's [cef_event_flags_t]. *)
Definition cef_event_flags : EventFlags :=
  {| EVENTFLAG_SHIFT_DOWN := 2; EVENTFLAG_CONTROL_DOWN := 4;
     EVENTFLAG_ALT_DOWN := 8 |}.

End Input.

(** * Properties *)

(** Unfolds the monadic plumbing so that a method body computes. *)
Ltac unfold_state :=
  unfold exec, eval, when, modify, get_state, put_state,
    mbind, state_bind, mret, state_ret in *.

(** Division facts about [a mod 4], in a form [lia] can use. *)
Ltac mod4 a :=
  pose proof (Nat.div_mod_eq a 4);
  pose proof (Nat.mod_upper_bound a 4 ltac:(lia)).

(** ** Integer conversions *)

Lemma wrap_in_range z : CInt.in_range z → CInt.wrap z = z.
Proof.
  unfold CInt.in_range, CInt.wrap, CInt.INT_MIN, CInt.INT_MAX. intros Hz.
  rewrite Z.mod_small; lia.
Qed.

Lemma to_size_t_nonneg z : (0 ≤ z ≤ CInt.INT_MAX)%Z → CInt.to_size_t z = z.
Proof.
  unfold CInt.to_size_t, CInt.INT_MAX. intros Hz. apply Z.mod_small. lia.
Qed.

Lemma to_uint32_nonneg z : (0 ≤ z ≤ CInt.INT_MAX)%Z → CInt.to_uint32 z = z.
Proof.
  unfold CInt.to_uint32, CInt.INT_MAX. intros Hz. apply Z.mod_small. lia.
Qed.

Lemma frame_bytes_ok w h :
  size_ok w h → Z.of_nat (frame_bytes w h) = (w * h * 4)%Z.
Proof.
  unfold size_ok, frame_bytes, CInt.mul. intros Hs.
  assert (Hwh : CInt.in_range (w * h))
    by (unfold CInt.in_range, CInt.INT_MIN, CInt.INT_MAX in *; lia).
  rewrite (wrap_in_range _ Hwh).
  rewrite wrap_in_range
    by (unfold CInt.in_range, CInt.INT_MIN, CInt.INT_MAX in *; lia).
  rewrite to_size_t_nonneg by lia. lia.
Qed.

(** ** memcpy and resize *)

Lemma length_memcpy dst src n : length (memcpy dst src n) = length dst.
Proof. unfold memcpy. apply length_imap. Qed.

Lemma lookup_memcpy dst src n k :
  k < n → k < length dst → k < length src →
  memcpy dst src n !! k = src !! k.
Proof.
  intros Hn Hd Hs. unfold memcpy. rewrite list_lookup_imap.
  destruct (lookup_lt_is_Some_2 dst k Hd) as [d ->].
  destruct (lookup_lt_is_Some_2 src k Hs) as [x ->].
  simpl. rewrite decide_True by done. done.
Qed.

Lemma memcpy_whole dst src :
  length src = length dst → memcpy dst src (length dst) = src.
Proof.
  intros Hlen. apply list_eq. intros k.
  destruct (decide (k < length dst)) as [Hk|Hk].
  - apply lookup_memcpy; lia.
  - rewrite !lookup_ge_None_2; [done | lia | rewrite length_memcpy; lia].
Qed.

Lemma length_vector_resize n v : length (vector_resize n v) = n.
Proof. apply length_resize. Qed.

(** ** The frame store *)

Section store.
Import RenderHandler.

Lemma convert_pixel_frame i data s : exec (convert_pixel i data) s = s.
Proof. reflexivity. Qed.

Lemma convert_loop_frame rounds : ∀ i data s,
  exec (convert_loop rounds i data) s = s.
Proof.
  induction rounds as [|rounds IH]; intros i data s; [reflexivity|].
  simpl. unfold_state.
  destruct (convert_pixel i data s) as [data' s'] eqn:Hp.
  assert (s' = s) as -> by (change s' with (snd (data', s')); rewrite <- Hp; reflexivity).
  apply IH.
Qed.

Lemma convert_loop_step rounds i data s :
  eval (convert_loop (S rounds) i data) s =
  eval (convert_loop rounds (i + 4)
          (<[i + 3 := m_Buffer s !!! (i + 3)]>
             (<[i + 2 := m_Buffer s !!! i]>
                (<[i + 1 := m_Buffer s !!! (i + 1)]>
                   (<[i := m_Buffer s !!! (i + 2)]> data))))) s.
Proof. reflexivity. Qed.

Lemma length_convert_loop rounds : ∀ i data s,
  length (eval (convert_loop rounds i data) s) = length data.
Proof.
  induction rounds as [|rounds IH]; intros i data s; [reflexivity|].
  rewrite convert_loop_step, IH, !length_insert. reflexivity.
Qed.

Lemma swap_index_cases k :
  (k mod 4 = 0 ∧ swap_index k = k + 2) ∨
  (k mod 4 = 1 ∧ swap_index k = k) ∨
  (k mod 4 = 2 ∧ swap_index k = k - 2) ∨
  (k mod 4 = 3 ∧ swap_index k = k).
Proof.
  unfold swap_index.
  assert (Hlt : k mod 4 < 4) by (apply Nat.mod_upper_bound; lia).
  destruct (k mod 4) as [|[|[|[|r]]]]; try lia; auto.
Qed.

(** The loop invariant: below [i] the output is settled, from [i] on it
    will receive the swapped bytes of the buffer. *)
Lemma convert_loop_lookup rounds : ∀ i data s k,
  i mod 4 = 0 →
  length data = length (m_Buffer s) →
  i + 4 * rounds = length (m_Buffer s) →
  k < length (m_Buffer s) →
  eval (convert_loop rounds i data) s !! k =
    if decide (k < i) then data !! k else m_Buffer s !! swap_index k.
Proof.
  induction rounds as [|rounds IH]; intros i data s k Hi Hlen Hend Hk.
  - simpl. unfold_state. simpl. rewrite decide_True by lia. reflexivity.
  - rewrite convert_loop_step.
    mod4 i. mod4 (i + 4). mod4 k.
    rewrite IH; [| lia | by rewrite !length_insert | lia | done].
    destruct (swap_index_cases k) as [[Hm Hsw]|[[Hm Hsw]|[[Hm Hsw]|[Hm Hsw]]]];
      rewrite Hsw; repeat case_decide; try lia; try reflexivity.
    + rewrite !list_lookup_insert_ne by lia. reflexivity.
    + assert (k = i) as -> by lia.
      rewrite !list_lookup_insert_ne by lia.
      rewrite list_lookup_insert_eq by lia.
      symmetry. apply list_lookup_lookup_total_lt. lia.
    + rewrite !list_lookup_insert_ne by lia. reflexivity.
    + assert (k = i + 1) as -> by lia.
      rewrite !list_lookup_insert_ne by lia.
      rewrite list_lookup_insert_eq by (rewrite ?length_insert; lia).
      symmetry. apply list_lookup_lookup_total_lt. lia.
    + rewrite !list_lookup_insert_ne by lia. reflexivity.
    + assert (k = i + 2) as -> by lia.
      rewrite !list_lookup_insert_ne by lia.
      rewrite list_lookup_insert_eq by (rewrite ?length_insert; lia).
      replace (i + 2 - 2) with i by lia.
      symmetry. apply list_lookup_lookup_total_lt. lia.
    + rewrite !list_lookup_insert_ne by lia. reflexivity.
    + assert (k = i + 3) as -> by lia.
      rewrite list_lookup_insert_eq by (rewrite ?length_insert; lia).
      symmetry. apply list_lookup_lookup_total_lt. lia.
Qed.

End store.

Section store_methods.
Import RenderHandler.

Lemma loop_rounds_exact size : size mod 4 = 0 → 4 * loop_rounds size = size.
Proof.
  intros Hm. unfold loop_rounds. mod4 size.
  pose proof (Nat.div_mod_eq (size + 3) 4).
  pose proof (Nat.mod_upper_bound (size + 3) 4 ltac:(lia)). lia.
Qed.

Lemma GetTextureData_frame data s : exec (GetTextureData data) s = s.
Proof.
  unfold GetTextureData. unfold_state.
  pose proof (convert_loop_frame (loop_rounds (length (m_Buffer s))) 0
                (vector_resize (length (m_Buffer s)) data) s) as Hf.
  unfold exec in Hf.
  destruct (convert_loop _ _ _ s) as [d s']. simpl in *. done.
Qed.

Lemma GetTextureData_eval data s :
  eval (GetTextureData data) s =
  (eval (convert_loop (loop_rounds (length (m_Buffer s))) 0
           (vector_resize (length (m_Buffer s)) data)) s,
   m_Width s, m_Height s).
Proof.
  unfold GetTextureData. unfold_state.
  destruct (convert_loop _ _ _ s) as [d s']. reflexivity.
Qed.

Lemma OnPaint_exec buffer w h s :
  exec (OnPaint buffer w h) s =
  {| m_Buffer :=
       memcpy (if bool_decide (w ≠ m_Width s) || bool_decide (h ≠ m_Height s)
               then vector_resize (frame_bytes w h) (m_Buffer s)
               else m_Buffer s) buffer (frame_bytes w h);
     m_Width := w; m_Height := h; m_IsDirty := true |}.
Proof.
  unfold OnPaint. unfold_state.
  repeat case_bool_decide; simpl; try reflexivity.
  destruct s; simpl in *. f_equal; naive_solver.
Qed.

Lemma GetViewRect_eval s :
  eval GetViewRect s =
  {| rect_x := 0; rect_y := 0;
     rect_width := m_Width s; rect_height := m_Height s |}.
Proof. reflexivity. Qed.

Lemma Resize_exec w h s :
  exec (Resize w h) s =
  {| m_Buffer := vector_resize (frame_bytes w h) (m_Buffer s);
     m_Width := w; m_Height := h; m_IsDirty := m_IsDirty s |}.
Proof. reflexivity. Qed.

Lemma new_buffer_inv w h : size_ok w h → buffer_inv (new w h).
Proof.
  intros Hs. unfold buffer_inv, new. simpl.
  rewrite length_vector_resize. by apply frame_bytes_ok.
Qed.

Lemma step_buffer_inv op s : op_ok op → buffer_inv s → buffer_inv (step op s).
Proof.
  intros Hok Hinv. destruct op as [|buffer w h|data| | |w h]; simpl in *.
  - exact Hinv.
  - rewrite OnPaint_exec. unfold buffer_inv in *. simpl.
    rewrite length_memcpy.
    repeat case_bool_decide; simpl;
      try (rewrite length_vector_resize; by apply frame_bytes_ok).
    assert (w = m_Width s) as -> by naive_solver.
    assert (h = m_Height s) as -> by naive_solver. exact Hinv.
  - rewrite GetTextureData_frame. exact Hinv.
  - exact Hinv.
  - exact Hinv.
  - rewrite Resize_exec. unfold buffer_inv. simpl.
    rewrite length_vector_resize. by apply frame_bytes_ok.
Qed.

Lemma reachable_buffer_inv s : reachable s → buffer_inv s.
Proof.
  induction 1 as [w h Hs|op s Hok _ IH].
  - by apply new_buffer_inv.
  - by apply step_buffer_inv.
Qed.

Lemma run_snoc ops op s : run (ops ++ [op]) s = step op (run ops s).
Proof. unfold run. by rewrite foldl_app. Qed.

Lemma reachable_run w h ops :
  size_ok w h → Forall op_ok ops → reachable (run ops (new w h)).
Proof.
  intros Hs. induction ops as [|op ops IH] using rev_ind; intros Hops.
  - by apply reachable_new.
  - apply Forall_app in Hops as [Hops Hop]. rewrite run_snoc.
    apply reachable_step; [by inversion Hop | by apply IH].
Qed.

(** After a paint of a whole frame, the buffer is that frame. *)
Lemma OnPaint_buffer buffer w h s :
  size_ok w h → Z.of_nat (length buffer) = (w * h * 4)%Z → buffer_inv s →
  m_Buffer (exec (OnPaint buffer w h) s) = buffer.
Proof.
  intros Hs Hlen Hinv. rewrite OnPaint_exec. simpl.
  pose proof (frame_bytes_ok w h Hs) as Hfb.
  assert (Hn : frame_bytes w h = length buffer) by lia.
  rewrite Hn.
  match goal with |- context [memcpy ?d _ _] => set (dst := d) end.
  assert (Hdst : length dst = length buffer).
  { subst dst. repeat case_bool_decide; simpl;
      try (rewrite length_vector_resize; lia).
    unfold buffer_inv in Hinv.
    assert (w = m_Width s) by naive_solver.
    assert (h = m_Height s) by naive_solver. subst. lia. }
  rewrite <- Hdst. apply memcpy_whole. lia.
Qed.

End store_methods.

Section store_claims.
Import RenderHandler.

Lemma multiple_of_four_length (l : list uint8_t) (w h : Z) :
  Z.of_nat (length l) = (w * h * 4)%Z → length l mod 4 = 0.
Proof.
  intros Hlen. mod4 (length l).
  assert (Z.of_nat (length l) = (4 * Z.of_nat (length l / 4)
                                 + Z.of_nat (length l mod 4))%Z) by lia.
  lia.
Qed.

(** C1. For positive dimensions whose byte count [width * height * 4] the
    program can compute, and a frame of that many bytes, [OnPaint] followed
    by [GetTextureData] returns the painted dimensions and a buffer of
    exactly [width * height * 4] bytes in which the bytes at indices 1 and
    3 modulo 4 are those of the frame at the same index, and the bytes at
    indices 0 and 2 modulo 4 are those of the frame two places up and two
    places down: bytes 0 and 2 of every pixel are swapped.  The 2 x 1 frame
    [10,20,30,40, 50,60,70,80] comes back as [30,20,10,40, 70,60,50,80]. *)
Theorem paint_then_read_swaps_red_blue w h buffer data0 s :
  (0 < w)%Z → (0 < h)%Z → size_ok w h →
  Z.of_nat (length buffer) = (w * h * 4)%Z →
  reachable s →
  ∃ data,
    eval (GetTextureData data0) (exec (OnPaint buffer w h) s) = (data, w, h) ∧
    Z.of_nat (length data) = (w * h * 4)%Z ∧
    (∀ k, k < length data →
       (k mod 4 = 1 ∨ k mod 4 = 3 → data !! k = buffer !! k) ∧
       (k mod 4 = 0 → data !! k = buffer !! (k + 2)) ∧
       (k mod 4 = 2 → data !! k = buffer !! (k - 2))) ∧
    (w = 2%Z → h = 1%Z → buffer = [10; 20; 30; 40; 50; 60; 70; 80]%Z →
     data = [30; 20; 10; 40; 70; 60; 50; 80]%Z).
Proof.
  intros Hw Hh Hs Hlen Hreach.
  pose proof (OnPaint_buffer buffer w h s Hs Hlen
                (reachable_buffer_inv s Hreach)) as Hbuf.
  rewrite GetTextureData_eval, Hbuf.
  set (s' := exec (OnPaint buffer w h) s) in *.
  set (data := eval _ s').
  assert (Hdlen : length data = length buffer).
  { subst data. by rewrite length_convert_loop, length_vector_resize. }
  assert (Hlook : ∀ k, k < length data → data !! k = buffer !! swap_index k).
  { intros k Hk. subst data.
    rewrite convert_loop_lookup; rewrite ?Hbuf.
    - rewrite decide_False by lia. reflexivity.
    - reflexivity.
    - apply length_vector_resize.
    - simpl. apply loop_rounds_exact.
      by apply (multiple_of_four_length _ w h).
    - lia. }
  exists data. split; [|split; [|split]].
  - subst s'. rewrite OnPaint_exec. reflexivity.
  - lia.
  - intros k Hk. rewrite (Hlook k Hk).
    destruct (swap_index_cases k) as [[Hm ->]|[[Hm ->]|[[Hm ->]|[Hm ->]]]];
      repeat split; intros; try reflexivity; lia.
  - intros -> -> ->. simpl in Hdlen.
    apply list_eq. intros k.
    destruct (decide (k < 8)) as [Hk|Hk].
    + rewrite Hlook by lia.
      do 8 (destruct k as [|k]; [reflexivity|]). lia.
    + rewrite !lookup_ge_None_2; [done | simpl; lia | lia].
Qed.

(** C1, at the frame of the scenario painted into the store the
    application constructs. *)
Lemma paint_then_read_swaps_red_blue_witness :
  ∃ data,
    eval (GetTextureData [])
      (exec (OnPaint [10; 20; 30; 40; 50; 60; 70; 80]%Z 2 1) (new 800 600))
      = (data, 2%Z, 1%Z) ∧
    data = [30; 20; 10; 40; 70; 60; 50; 80]%Z.
Proof.
  destruct (paint_then_read_swaps_red_blue 2 1
              [10; 20; 30; 40; 50; 60; 70; 80]%Z [] (new 800 600))
    as (data & Heval & _ & _ & Hdata).
  - lia.
  - lia.
  - unfold size_ok, CInt.INT_MAX. lia.
  - reflexivity.
  - apply reachable_new. unfold size_ok, CInt.INT_MAX. lia.
  - exists data. split; [exact Heval | by apply Hdata].
Defined.

(** C4. When the second of two [OnPaint] calls comes with a width or a
    height other than the first's, [GetTextureData] after it returns the
    new dimensions and a buffer of exactly [newWidth * newHeight * 4]
    bytes; the buffer has the size of the old dimensions only where both
    sizes are the same number. *)
Theorem read_after_resizing_paint s buffer1 w1 h1 buffer2 w2 h2 data0 :
  w2 ≠ w1 ∨ h2 ≠ h1 → size_ok w2 h2 →
  ∃ data,
    eval (GetTextureData data0)
      (exec (OnPaint buffer2 w2 h2) (exec (OnPaint buffer1 w1 h1) s))
      = (data, w2, h2) ∧
    Z.of_nat (length data) = (w2 * h2 * 4)%Z ∧
    ((w1 * h1 * 4)%Z ≠ (w2 * h2 * 4)%Z →
     Z.of_nat (length data) ≠ (w1 * h1 * 4)%Z).
Proof.
  intros Hdiff Hs.
  rewrite GetTextureData_eval.
  set (s1 := exec (OnPaint buffer1 w1 h1) s).
  assert (Hw1 : m_Width s1 = w1 ∧ m_Height s1 = h1)
    by (subst s1; rewrite OnPaint_exec; done).
  set (s2 := exec (OnPaint buffer2 w2 h2) s1).
  assert (Hlen : Z.of_nat (length (m_Buffer s2)) = (w2 * h2 * 4)%Z).
  { subst s2. rewrite OnPaint_exec. simpl. rewrite length_memcpy.
    destruct Hw1 as [-> ->].
    rewrite orb_true_intro; [|destruct Hdiff;
      [left | right]; by apply bool_decide_eq_true].
    rewrite length_vector_resize. by apply frame_bytes_ok. }
  assert (Hw2 : m_Width s2 = w2 ∧ m_Height s2 = h2)
    by (subst s2; rewrite OnPaint_exec; done).
  destruct Hw2 as [-> ->].
  eexists. split; [|split].
  - reflexivity.
  - rewrite length_convert_loop, length_vector_resize. exact Hlen.
  - rewrite length_convert_loop, length_vector_resize. lia.
Qed.

(** C4, at a 1 x 1 frame followed by a 2 x 1 frame. *)
Lemma read_after_resizing_paint_witness :
  ∃ data,
    eval (GetTextureData [])
      (exec (OnPaint [5; 6; 7; 8; 9; 10; 11; 12]%Z 2 1)
         (exec (OnPaint [1; 2; 3; 4]%Z 1 1) (new 800 600)))
      = (data, 2%Z, 1%Z) ∧
    Z.of_nat (length data) = 8%Z.
Proof.
  destruct (read_after_resizing_paint (new 800 600) [1; 2; 3; 4]%Z 1 1
              [5; 6; 7; 8; 9; 10; 11; 12]%Z 2 1 [])
    as (data & Heval & Hlen & _).
  - left. lia.
  - unfold size_ok, CInt.INT_MAX. lia.
  - exists data. split; [exact Heval | exact Hlen].
Defined.

(** C5. Wherever a sequence of store operations has led, the dirty flag
    is true right after [OnPaint] and false right after [ClearDirty];
    [GetTextureData] leaves it as it was, and an operation after which a
    raised flag is down can only be [ClearDirty]. *)
Theorem dirty_flag_protocol (ops : list Op) (s0 : Store) :
  let s := run ops s0 in
  (∀ buffer w h, eval IsDirty (step (OpOnPaint buffer w h) s) = true) ∧
  eval IsDirty (step OpClearDirty s) = false ∧
  (∀ data, eval IsDirty (step (OpGetTextureData data) s) = eval IsDirty s) ∧
  (∀ op, eval IsDirty s = true → eval IsDirty (step op s) = false →
         op = OpClearDirty).
Proof.
  intros s. repeat split.
  - intros buffer w h. simpl. rewrite OnPaint_exec. reflexivity.
  - intros data. simpl. rewrite GetTextureData_frame. reflexivity.
  - intros op Hd Hc. destruct op as [|buffer w h|data| | |w h]; simpl in Hc.
    + change (eval IsDirty s = false) in Hc. congruence.
    + rewrite OnPaint_exec in Hc. discriminate.
    + rewrite GetTextureData_frame in Hc. congruence.
    + change (eval IsDirty s = false) in Hc. congruence.
    + reflexivity.
    + rewrite Resize_exec in Hc. change (eval IsDirty s = false) in Hc.
      congruence.
Qed.

(** C8. [GetViewRect] always answers the rectangle at the origin with the
    stored width and height; on a store constructed with [(w, h)], or
    resized to [(w, h)], and then operated on without a change of
    dimensions, that is [(0, 0, w, h)]. *)
Theorem view_rect_is_stored_size (w h : Z) (ops : list Op) (s : Store) :
  Forall (λ op, keeps_dims w h op = true) ops →
  eval GetViewRect s =
    {| rect_x := 0; rect_y := 0;
       rect_width := m_Width s; rect_height := m_Height s |} ∧
  eval GetViewRect (run ops (new w h)) =
    {| rect_x := 0; rect_y := 0; rect_width := w; rect_height := h |} ∧
  eval GetViewRect (run ops (exec (Resize w h) s)) =
    {| rect_x := 0; rect_y := 0; rect_width := w; rect_height := h |}.
Proof.
  intros Hops.
  assert (Hkeep : ∀ s1, m_Width s1 = w → m_Height s1 = h →
            m_Width (run ops s1) = w ∧ m_Height (run ops s1) = h).
  { induction ops as [|op ops IH] using rev_ind; intros s1 Hw1 Hh1; [done|].
    apply Forall_app in Hops as [Hops Hop]. inversion_clear Hop as [|? ? Hk _].
    rewrite run_snoc. destruct (IH Hops s1 Hw1 Hh1) as [IHw IHh].
    destruct op as [|buffer w' h'|data| | |w' h']; simpl in *; try done.
    - apply andb_prop in Hk as [->%bool_decide_eq_true ->%bool_decide_eq_true].
      rewrite OnPaint_exec. done.
    - rewrite GetTextureData_frame. done.
    - apply andb_prop in Hk as [->%bool_decide_eq_true ->%bool_decide_eq_true].
      done. }
  split; [reflexivity|]. split.
  - destruct (Hkeep (new w h)) as [Hw' Hh']; [done..|].
    by rewrite GetViewRect_eval, Hw', Hh'.
  - destruct (Hkeep (exec (Resize w h) s)) as [Hw' Hh']; [done..|].
    by rewrite GetViewRect_eval, Hw', Hh'.
Qed.

(** C8, at a store resized to 640 x 480, then painted at that size, read
    and cleared. *)
Lemma view_rect_is_stored_size_witness :
  eval GetViewRect
    (run [OpOnPaint [] 640 480; OpGetTextureData []; OpClearDirty]
       (exec (Resize 640 480) (new 800 600))) =
  {| rect_x := 0; rect_y := 0; rect_width := 640; rect_height := 480 |}.
Proof.
  apply (view_rect_is_stored_size 640 480
           [OpOnPaint [] 640 480; OpGetTextureData []; OpClearDirty]
           (new 800 600)).
  repeat constructor.
Defined.

(** C9. The constructor establishes, and every operation of the store
    preserves, that the backing buffer is [m_Width * m_Height * 4] bytes
    long; so in every reachable store the buffer [GetTextureData] returns
    has length returned width times returned height times 4. *)
Theorem buffer_length_invariant (s : Store) :
  reachable s →
  (∀ w h, size_ok w h → buffer_inv (new w h)) ∧
  (∀ op s1, op_ok op → buffer_inv s1 → buffer_inv (step op s1)) ∧
  buffer_inv s ∧
  (∀ data0, ∃ data w h,
     eval (GetTextureData data0) s = (data, w, h) ∧
     Z.of_nat (length data) = (w * h * 4)%Z).
Proof.
  intros Hreach. split; [exact new_buffer_inv|].
  split; [exact step_buffer_inv|].
  pose proof (reachable_buffer_inv s Hreach) as Hinv.
  split; [exact Hinv|].
  intros data0. rewrite GetTextureData_eval.
  eexists _, _, _. split; [reflexivity|].
  rewrite length_convert_loop, length_vector_resize. exact Hinv.
Qed.

(** C9, at the store of the application after a 2 x 1 paint and a resize
    to 3 x 2. *)
Lemma buffer_length_invariant_witness :
  buffer_inv
    (run [OpOnPaint [1; 2; 3; 4; 5; 6; 7; 8]%Z 2 1; OpResize 3 2]
       (new 800 600)).
Proof.
  refine (proj1 (proj2 (proj2 (buffer_length_invariant _ _)))).
  apply reachable_run.
  - unfold size_ok, CInt.INT_MAX. lia.
  - repeat constructor; unfold size_ok, CInt.INT_MAX; simpl; lia.
Defined.

(** C10. [GetTextureData] only observes the store: buffer, width, height
    and dirty flag are after the call what they were before it; what it
    produces goes to the caller's three parameters. *)
Theorem GetTextureData_observes_only (data : list uint8_t) (s : Store) :
  let s' := exec (GetTextureData data) s in
  m_Buffer s' = m_Buffer s ∧ m_Width s' = m_Width s ∧
  m_Height s' = m_Height s ∧ m_IsDirty s' = m_IsDirty s ∧ s' = s.
Proof.
  intros s'. subst s'. rewrite GetTextureData_frame. done.
Qed.

End store_claims.

(** ** The browser lifecycle adapter *)

Section client_claims.
Import Client.

Lemma client_run_app es1 es2 c : run (es1 ++ es2) c = run es2 (run es1 c).
Proof. unfold run. apply foldl_app. Qed.

(** Without a creation notification an empty handle stays empty. *)
Lemma run_stays_empty es : ∀ c,
  Forall (λ e, is_created e = false) es →
  m_Browser c = None → m_Browser (run es c) = None.
Proof.
  induction es as [|e es IH]; intros c Hes Hc; [exact Hc|].
  inversion_clear Hes as [|? ? He Hes'].
  change (run (e :: es) c) with (run es (step e c)).
  apply IH; [exact Hes'|].
  destruct e; simpl in *; try done.
Qed.

(** Without a lifecycle notification the handle is kept. *)
Lemma run_keeps_handle es : ∀ c,
  Forall (λ e, is_created e = false ∧ is_close e = false) es →
  m_Browser (run es c) = m_Browser c.
Proof.
  induction es as [|e es IH]; intros c Hes; [reflexivity|].
  inversion_clear Hes as [|? ? [He1 He2] Hes'].
  change (run (e :: es) c) with (run es (step e c)).
  rewrite IH by exact Hes'.
  destruct e; simpl in *; done.
Qed.

(** C6. Starting from a fresh [CefClientImpl], [GetBrowser] is empty as
    long as no [OnAfterCreated] has arrived, and from any [OnBeforeClose]
    until the next [OnAfterCreated]; from an [OnAfterCreated] until the
    next lifecycle notification it is the very handle that notification
    carried, however often the accessors are called in between. *)
Theorem browser_handle_window
    (renderHandler browser : CefRefPtr) (before between after : list Event) :
  Forall (λ e, is_created e = false) after →
  Forall (λ e, is_created e = false ∧ is_close e = false) between →
  eval GetBrowser (run after (new renderHandler)) = None ∧
  eval GetBrowser
    (run (before ++ EvBeforeClose browser :: after) (new renderHandler)) = None ∧
  eval GetBrowser
    (run (before ++ EvAfterCreated browser :: between) (new renderHandler))
    = browser.
Proof.
  intros Hafter Hbetween.
  repeat split.
  - change (m_Browser (run after (new renderHandler)) = None).
    by apply run_stays_empty.
  - change (m_Browser (run (before ++ EvBeforeClose browser :: after)
                         (new renderHandler)) = None).
    rewrite client_run_app.
    change (run (EvBeforeClose browser :: after) ?c)
      with (run after (step (EvBeforeClose browser) c)).
    by apply run_stays_empty.
  - change (m_Browser (run (before ++ EvAfterCreated browser :: between)
                         (new renderHandler)) = browser).
    rewrite client_run_app.
    change (run (EvAfterCreated browser :: between) ?c)
      with (run between (step (EvAfterCreated browser) c)).
    by rewrite run_keeps_handle.
Qed.

(** C6, at a browser that is created, queried and closed. *)
Lemma browser_handle_window_witness :
  eval GetBrowser (run [EvGetBrowser; EvBeforeClose None] (new (Some 0))) = None ∧
  eval GetBrowser
    (run ([EvAfterCreated (Some 7); EvGetBrowser]
          ++ EvBeforeClose (Some 7) :: [EvGetBrowser; EvBeforeClose None])
       (new (Some 0))) = None ∧
  eval GetBrowser
    (run ([EvAfterCreated (Some 7); EvGetBrowser]
          ++ EvAfterCreated (Some 7) :: [EvGetBrowser; EvGetRenderHandler])
       (new (Some 0))) = Some 7.
Proof.
  apply (browser_handle_window (Some 0) (Some 7)).
  - repeat constructor.
  - repeat constructor.
Defined.

End client_claims.

(** ** The texture upload bridge *)

Lemma exec_bind {S A B} (m : State S A) (f : A → State S B) s :
  exec (m ≫= f) s = exec (f (eval m s)) (exec m s).
Proof. unfold_state. by destruct (m s). Qed.

Lemma count_app p l1 l2 : Vk.count p (l1 ++ l2) = Vk.count p l1 + Vk.count p l2.
Proof. unfold Vk.count. by rewrite List.filter_app, length_app. Qed.

(** Runs a method of the application on a state given field by field. *)
Ltac run_app :=
  cbv [exec eval when modify get_state put_state mbind state_bind mret state_ret
       fst snd
       VulkanRenderer.CreateTextureImage VulkanRenderer.UpdateTextureImage
       VulkanRenderer.CreateImageView VulkanRenderer.CreateTextureSampler
       VulkanRenderer.AddTexture VulkanRenderer.upload
       VulkanRenderer.BeginFrame VulkanRenderer.EndFrame
       Vk.DestroyImageView Vk.DestroyImage Vk.FreeMemory
       Vk.call Vk.fresh Vk.set_images Vk.set_views Vk.continues
       next_handle images views calls
       image_created memory_allocated view_created sampler_created
       App.recreate App.release_texture App.create_texture App.release_calls
       App.set_BrowserSize App.set_CefTextureImage App.set_CefTextureView
       App.set_CefTextureSampler App.set_CefDescriptorSet App.on_renderer
       App.on_handler
       App.m_Renderer App.m_RenderHandler App.m_Client App.m_CefTextureImage
       App.m_CefTextureMemory App.m_CefTextureView App.m_CefTextureSampler
       App.m_CefDescriptorSet App.m_BrowserWidth App.m_BrowserHeight].

Ltac count_calls :=
  cbv [Vk.count List.filter length Vk.is_create_image Vk.is_update_barrier
       Vk.is_destroy Vk.is_wait Vk.is_submit app].

Section bridge.
Import App.

(** [release_texture] destroys what is held and touches nothing else. *)
Lemma release_texture_exec app :
  exec release_texture app =
  {| m_Renderer :=
       {| next_handle := next_handle (m_Renderer app);
          images := if bool_decide (m_CefTextureImage app ≠ VK_NULL_HANDLE)
                    then delete (m_CefTextureImage app) (images (m_Renderer app))
                    else images (m_Renderer app);
          views := if bool_decide (m_CefTextureView app ≠ VK_NULL_HANDLE)
                   then delete (m_CefTextureView app) (views (m_Renderer app))
                   else views (m_Renderer app);
          calls := calls (m_Renderer app) ++ release_calls app |};
     m_RenderHandler := m_RenderHandler app;
     m_Client := m_Client app;
     m_CefTextureImage := m_CefTextureImage app;
     m_CefTextureMemory := m_CefTextureMemory app;
     m_CefTextureView := m_CefTextureView app;
     m_CefTextureSampler := m_CefTextureSampler app;
     m_CefDescriptorSet := m_CefDescriptorSet app;
     m_BrowserWidth := m_BrowserWidth app;
     m_BrowserHeight := m_BrowserHeight app |}.
Proof.
  destruct app as [[nh imgs vws log] hd cl img mem vw smp ds bw bh].
  run_app. repeat case_bool_decide; rewrite <- ?app_assoc, ?app_nil_r;
    reflexivity.
Qed.

(** What [create_texture] leaves behind, whatever the driver answers. *)
Lemma create_texture_spec drv w h data app :
  let d := m_Renderer app in
  let app' := exec (create_texture drv w h data) app in
  let d' := m_Renderer app' in
  m_RenderHandler app' = m_RenderHandler app ∧
  m_BrowserWidth app' = m_BrowserWidth app ∧
  m_BrowserHeight app' = m_BrowserHeight app ∧
  (∃ rest, Vk.continues d d' rest ∧
     Vk.count Vk.is_create_image rest = 1 ∧
     Vk.count Vk.is_update_barrier rest = 0 ∧
     Vk.count Vk.is_destroy rest =
       (if image_created drv && negb (memory_allocated drv) then 1 else 0)) ∧
  (next_handle d ≤ next_handle d')%Z ∧
  (image_created drv && memory_allocated drv = true →
     m_CefTextureImage app' = next_handle d ∧
     images d' = <[next_handle d := (CInt.to_uint32 w, CInt.to_uint32 h)]>
                   (images d)) ∧
  (image_created drv && memory_allocated drv = false →
     m_CefTextureImage app' = VK_NULL_HANDLE ∧
     ∀ k, images d !! k = None → images d' !! k = None) ∧
  (view_created drv = false → m_CefTextureView app' = VK_NULL_HANDLE).
Proof.
  destruct app as [[nh imgs vws log] hd cl img mem vw smp ds bw bh].
  destruct drv as [[] [] [] []]; run_app; case_bool_decide; cbn [andb negb];
    (split; [reflexivity|]); (split; [reflexivity|]); (split; [reflexivity|]);
    (split; [eexists; split;
               [rewrite <- ?app_assoc; reflexivity|count_calls; done]|]);
    (split; [lia|]);
    (split; [first [discriminate | done]|]);
    (split; [|first [discriminate | done]]);
    first [discriminate | intros _; split; [reflexivity|]; intros k Hk].
  all: try exact Hk.
  all: destruct (decide (k = nh)) as [->|Hne];
    [apply lookup_delete_eq
    |rewrite lookup_delete_ne, lookup_insert_ne by done; exact Hk].
Qed.

Lemma recreate_exec drv w h data app :
  exec (recreate drv w h data) app =
  exec (create_texture drv w h data)
    (exec release_texture (exec (set_BrowserSize w h) app)).
Proof. unfold recreate. by rewrite !exec_bind. Qed.

Lemma release_calls_counts app :
  Vk.count Vk.is_create_image (release_calls app) = 0 ∧
  Vk.count Vk.is_update_barrier (release_calls app) = 0.
Proof. unfold release_calls. by repeat case_bool_decide. Qed.

(** The recreation branch as a whole. *)
Lemma recreate_spec drv w h data app :
  let d := m_Renderer app in
  let app' := exec (recreate drv w h data) app in
  let d' := m_Renderer app' in
  m_RenderHandler app' = m_RenderHandler app ∧
  m_BrowserWidth app' = w ∧
  m_BrowserHeight app' = h ∧
  (∃ rest, calls d' = calls d ++ release_calls app ++ rest ∧
     Vk.count Vk.is_create_image rest = 1 ∧
     Vk.count Vk.is_update_barrier rest = 0) ∧
  (next_handle d ≤ next_handle d')%Z ∧
  (image_created drv && memory_allocated drv = true →
     m_CefTextureImage app' = next_handle d ∧
     images d' !! m_CefTextureImage app'
       = Some (CInt.to_uint32 w, CInt.to_uint32 h)) ∧
  (image_created drv && memory_allocated drv = false →
     m_CefTextureImage app' = VK_NULL_HANDLE ∧
     (m_CefTextureImage app ≠ VK_NULL_HANDLE →
      images d' !! m_CefTextureImage app = None)) ∧
  (view_created drv = false → m_CefTextureView app' = VK_NULL_HANDLE).
Proof.
  intros d app' d'. subst app' d'. rewrite recreate_exec.
  set (app1 := exec release_texture (exec (set_BrowserSize w h) app)).
  assert (Happ1 : app1 =
    {| m_Renderer :=
         {| next_handle := next_handle d;
            images := if bool_decide (m_CefTextureImage app ≠ VK_NULL_HANDLE)
                      then delete (m_CefTextureImage app) (images d)
                      else images d;
            views := if bool_decide (m_CefTextureView app ≠ VK_NULL_HANDLE)
                     then delete (m_CefTextureView app) (views d)
                     else views d;
            calls := calls d ++ release_calls app |};
       m_RenderHandler := m_RenderHandler app;
       m_Client := m_Client app;
       m_CefTextureImage := m_CefTextureImage app;
       m_CefTextureMemory := m_CefTextureMemory app;
       m_CefTextureView := m_CefTextureView app;
       m_CefTextureSampler := m_CefTextureSampler app;
       m_CefDescriptorSet := m_CefDescriptorSet app;
       m_BrowserWidth := w;
       m_BrowserHeight := h |}).
  { subst app1. rewrite release_texture_exec. by destruct app. }
  assert (Hd1 : m_Renderer app1 =
            {| next_handle := next_handle d;
               images := if bool_decide (m_CefTextureImage app ≠ VK_NULL_HANDLE)
                         then delete (m_CefTextureImage app) (images d)
                         else images d;
               views := if bool_decide (m_CefTextureView app ≠ VK_NULL_HANDLE)
                        then delete (m_CefTextureView app) (views d)
                        else views d;
               calls := calls d ++ release_calls app |})
    by (by rewrite Happ1).
  assert (Hh1 : m_RenderHandler app1 = m_RenderHandler app)
    by (by rewrite Happ1).
  assert (Hbw1 : m_BrowserWidth app1 = w) by (by rewrite Happ1).
  assert (Hbh1 : m_BrowserHeight app1 = h) by (by rewrite Happ1).
  clearbody app1. clear Happ1.
  destruct (create_texture_spec drv w h data app1)
    as (Hh & Hbw & Hbh & (rest & Hrest & Hc & Hu & _) & Hnh & Hok & Hfail & Hview).
  unfold Vk.continues in Hrest.
  rewrite Hd1 in Hrest, Hnh, Hok, Hfail. simpl in Hrest, Hnh, Hok, Hfail.
  split_and!.
  - congruence.
  - congruence.
  - congruence.
  - exists rest. split_and!; [|done..]. by rewrite Hrest, <- app_assoc.
  - exact Hnh.
  - intros Hgranted. destruct (Hok Hgranted) as [Himg Himgs].
    split; [exact Himg|]. rewrite Himg, Himgs. apply lookup_insert_eq.
  - intros Hrefused. destruct (Hfail Hrefused) as [Himg Hgone].
    split; [exact Himg|]. intros Hold. apply Hgone.
    rewrite bool_decide_eq_true_2 by done. apply lookup_delete_eq.
  - exact Hview.
Qed.

Lemma GetTextureData_run data s :
  RenderHandler.GetTextureData data s =
  (eval (RenderHandler.GetTextureData data) s, s).
Proof.
  pose proof (GetTextureData_frame data s) as H. unfold exec, eval in *.
  destruct (RenderHandler.GetTextureData data s) as [r s']. simpl in *.
  by subst.
Qed.

Lemma UpdateCefTexture_clean drv app :
  m_IsDirty (m_RenderHandler app) = false →
  exec (UpdateCefTexture drv) app = app.
Proof.
  intros Hd. destruct app. simpl in Hd.
  unfold UpdateCefTexture. unfold_state. unfold on_handler at 1. simpl.
  by rewrite Hd.
Qed.

(** A dirty handler sends [UpdateCefTexture] into one of its two
    branches, then clears the flag. *)
Lemma UpdateCefTexture_dirty drv app :
  m_IsDirty (m_RenderHandler app) = true →
  let handler := m_RenderHandler app in
  let textureData := (eval (RenderHandler.GetTextureData []) handler).1.1 in
  exec (UpdateCefTexture drv) app =
  exec (on_handler RenderHandler.ClearDirty)
    (exec (if needs_recreation app (m_Width handler) (m_Height handler)
           then recreate drv (m_Width handler) (m_Height handler) textureData
           else on_renderer
                  (VulkanRenderer.UpdateTextureImage (m_CefTextureImage app)
                     (m_Width handler) (m_Height handler) textureData))
       app).
Proof.
  intros Hd handler textureData. subst handler textureData.
  destruct app. simpl in *.
  unfold UpdateCefTexture. unfold_state. unfold on_handler at 1 2. simpl.
  rewrite Hd. simpl. rewrite GetTextureData_run, GetTextureData_eval. simpl.
  unfold needs_recreation. simpl.
  match goal with |- context [if ?c then _ else _] => destruct c end;
    match goal with |- context [let (_, _) := ?m ?s in _] =>
      destruct (m s) end; reflexivity.
Qed.

Lemma on_handler_exec {A} (m : State CefRenderHandlerImpl A) app :
  exec (on_handler m) app =
  {| m_Renderer := m_Renderer app;
     m_RenderHandler := exec m (m_RenderHandler app);
     m_Client := m_Client app;
     m_CefTextureImage := m_CefTextureImage app;
     m_CefTextureMemory := m_CefTextureMemory app;
     m_CefTextureView := m_CefTextureView app;
     m_CefTextureSampler := m_CefTextureSampler app;
     m_CefDescriptorSet := m_CefDescriptorSet app;
     m_BrowserWidth := m_BrowserWidth app;
     m_BrowserHeight := m_BrowserHeight app |}.
Proof.
  unfold on_handler, exec. by destruct (m (m_RenderHandler app)).
Qed.

Lemma on_renderer_exec {A} (m : State Device A) app :
  exec (on_renderer m) app =
  {| m_Renderer := exec m (m_Renderer app);
     m_RenderHandler := m_RenderHandler app;
     m_Client := m_Client app;
     m_CefTextureImage := m_CefTextureImage app;
     m_CefTextureMemory := m_CefTextureMemory app;
     m_CefTextureView := m_CefTextureView app;
     m_CefTextureSampler := m_CefTextureSampler app;
     m_CefDescriptorSet := m_CefDescriptorSet app;
     m_BrowserWidth := m_BrowserWidth app;
     m_BrowserHeight := m_BrowserHeight app |}.
Proof.
  unfold on_renderer, exec. by destruct (m (m_Renderer app)).
Qed.

Lemma UpdateTextureImage_spec image w h data d :
  let d' := exec (VulkanRenderer.UpdateTextureImage image w h data) d in
  (∃ rest, calls d' = calls d ++ rest ∧
     Vk.count Vk.is_create_image rest = 0 ∧
     Vk.count Vk.is_update_barrier rest = 1) ∧
  images d' = images d ∧ views d' = views d ∧ next_handle d' = next_handle d.
Proof.
  destruct d as [nh imgs vws log]. run_app. split; [|done].
  eexists. split; [rewrite <- ?app_assoc; reflexivity|by count_calls].
Qed.

(** One [Sync]: the frame is painted into the handler, then
    [UpdateCefTexture] takes the branch its condition selects. *)
Lemma Sync_spec p drv app :
  let d := m_Renderer app in
  let app' := exec (Sync p drv) app in
  let d' := m_Renderer app' in
  if needs_recreation app (width p) (height p) then
    Vk.recreations d' = Vk.recreations d + 1 ∧
    Vk.in_place_updates d' = Vk.in_place_updates d ∧
    m_BrowserWidth app' = width p ∧ m_BrowserHeight app' = height p ∧
    (m_CefTextureImage app' ≠ VK_NULL_HANDLE →
     images d' !! m_CefTextureImage app'
       = Some (CInt.to_uint32 (width p), CInt.to_uint32 (height p)))
  else
    Vk.recreations d' = Vk.recreations d ∧
    Vk.in_place_updates d' = Vk.in_place_updates d + 1 ∧
    m_BrowserWidth app' = m_BrowserWidth app ∧
    m_BrowserHeight app' = m_BrowserHeight app ∧
    m_CefTextureImage app' = m_CefTextureImage app ∧
    images d' = images d.
Proof.
  intros d app' d'. subst d app' d'. unfold Sync. rewrite exec_bind.
  set (app1 := exec (CefDoMessageLoopWork [p]) app).
  assert (Happ1 : app1 =
    {| m_Renderer := m_Renderer app;
       m_RenderHandler := exec (RenderHandler.OnPaint (pixels p) (width p)
                                  (height p)) (m_RenderHandler app);
       m_Client := m_Client app;
       m_CefTextureImage := m_CefTextureImage app;
       m_CefTextureMemory := m_CefTextureMemory app;
       m_CefTextureView := m_CefTextureView app;
       m_CefTextureSampler := m_CefTextureSampler app;
       m_CefDescriptorSet := m_CefDescriptorSet app;
       m_BrowserWidth := m_BrowserWidth app;
       m_BrowserHeight := m_BrowserHeight app |}).
  { subst app1. unfold CefDoMessageLoopWork. by rewrite on_handler_exec. }
  assert (Hhandler : m_RenderHandler app1 =
            exec (RenderHandler.OnPaint (pixels p) (width p) (height p))
              (m_RenderHandler app)) by (by rewrite Happ1).
  rewrite OnPaint_exec in Hhandler.
  assert (Hdirty : m_IsDirty (m_RenderHandler app1) = true)
    by (by rewrite Hhandler).
  assert (Hw : m_Width (m_RenderHandler app1) = width p)
    by (by rewrite Hhandler).
  assert (Hh : m_Height (m_RenderHandler app1) = height p)
    by (by rewrite Hhandler).
  clear Hhandler.
  assert (Hneeds : ∀ w h, needs_recreation app1 w h = needs_recreation app w h)
    by (by rewrite Happ1).
  assert (Hd1 : m_Renderer app1 = m_Renderer app) by (by rewrite Happ1).
  assert (Hbw1 : m_BrowserWidth app1 = m_BrowserWidth app) by (by rewrite Happ1).
  assert (Hbh1 : m_BrowserHeight app1 = m_BrowserHeight app) by (by rewrite Happ1).
  assert (Himg1 : m_CefTextureImage app1 = m_CefTextureImage app)
    by (by rewrite Happ1).
  clearbody app1. clear Happ1.
  rewrite UpdateCefTexture_dirty by exact Hdirty.
  rewrite on_handler_exec. cbn [m_Renderer m_BrowserWidth m_BrowserHeight
                                  m_CefTextureImage].
  rewrite Hw, Hh, Hneeds. destruct (needs_recreation app (width p) (height p)).
  - match goal with |- context [exec (recreate ?drv ?w ?h ?data) ?a] =>
      destruct (recreate_spec drv w h data a)
        as (_ & Hbw & Hbh & (rest & Hrest & Hc & Hu) & _ & Hok & Hfail & _)
    end.
    destruct (release_calls_counts app1) as [Hrc Hru].
    unfold Vk.recreations, Vk.in_place_updates.
    rewrite Hrest, !count_app, Hc, Hu, Hrc, Hru, Hd1.
    split_and!; [lia | lia | exact Hbw | exact Hbh |].
    intros Hlive.
    destruct (image_created drv && memory_allocated drv) eqn:Hgranted.
    + by apply Hok.
    + by destruct (Hfail eq_refl).
  - rewrite on_renderer_exec.
    cbn [m_Renderer m_BrowserWidth m_BrowserHeight m_CefTextureImage].
    match goal with
    | |- context [exec (VulkanRenderer.UpdateTextureImage ?i ?w ?h ?data) ?a] =>
        destruct (UpdateTextureImage_spec i w h data a)
          as ((rest & Hrest & Hc & Hu) & Himgs & _ & _)
    end.
    unfold Vk.recreations, Vk.in_place_updates.
    rewrite Hrest, !count_app, Hc, Hu, Himgs, Hd1.
    split_and!; [lia | lia | done..].
Qed.

End bridge.

Section bridge_claims.
Import App.

Lemma paint_ok_range p :
  paint_ok p →
  (0 ≤ width p ≤ CInt.INT_MAX)%Z ∧ (0 ≤ height p ≤ CInt.INT_MAX)%Z.
Proof. unfold paint_ok, size_ok, CInt.INT_MAX. nia. Qed.

Lemma Sync_texture_inv p drv app :
  paint_ok p → texture_inv app → texture_inv (exec (Sync p drv) app).
Proof.
  intros Hp Hinv. pose proof (Sync_spec p drv app) as Hs. cbv zeta in Hs.
  destruct (paint_ok_range p Hp) as [Hw Hh].
  unfold texture_inv in *.
  destruct (needs_recreation app (width p) (height p)).
  - destruct Hs as (_ & _ & -> & -> & Hlive). intros Himg.
    rewrite (Hlive Himg), !to_uint32_nonneg by done. reflexivity.
  - destruct Hs as (_ & _ & -> & -> & -> & ->). exact Hinv.
Qed.

Lemma run_syncs_snoc steps step app :
  run_syncs (steps ++ [step]) app
  = exec (Sync step.1 step.2) (run_syncs steps app).
Proof. unfold run_syncs. by rewrite foldl_app. Qed.

Lemma run_syncs_texture_inv steps :
  Forall (λ step, paint_ok step.1) steps →
  texture_inv (run_syncs steps initial).
Proof.
  induction steps as [|step steps IH] using rev_ind; intros Hsteps.
  - intros Himg. by destruct Himg.
  - apply Forall_app in Hsteps as [Hsteps Hstep].
    rewrite run_syncs_snoc. apply Sync_texture_inv; [|by apply IH].
    by inversion Hstep.
Qed.

(** Under [texture_inv] the branch condition compares the frame with the
    extent of the live texture. *)
Lemma needs_recreation_extent app w h :
  texture_inv app →
  needs_recreation app w h = false ↔ texture_extent app = Some (w, h).
Proof.
  intros Hinv. unfold needs_recreation, texture_extent, texture_inv in *.
  destruct (decide (m_CefTextureImage app = VK_NULL_HANDLE)) as [Hnull|Hlive].
  - rewrite !bool_decide_eq_true_2 by done. done.
  - rewrite !(bool_decide_eq_false_2 (m_CefTextureImage app = _)) by done.
    rewrite (Hinv Hlive). simpl.
    repeat case_bool_decide; simpl; split; intros Heq; try done;
      try congruence.
Qed.

(** C3. After any sequence of [Sync] calls, a further [Sync] whose frame
    has the width and height of the texture the application holds makes
    no recreation and one in-place update; a [Sync] that finds no texture,
    or one of another width or height, makes exactly one recreation and
    no in-place update.  A 100 x 100 frame followed by a 200 x 150 frame
    makes two recreations and no in-place update, whatever the pixels and
    whatever the driver answers. *)
Theorem sync_recreates_iff_size_changed
    (steps : list (Paint * DriverAnswers)) (p : Paint) (drv : DriverAnswers) :
  Forall (λ step, paint_ok step.1) steps → paint_ok p →
  let app := run_syncs steps initial in
  let app' := exec (Sync p drv) app in
  (texture_extent app = Some (width p, height p) →
   Vk.recreations (m_Renderer app') = Vk.recreations (m_Renderer app) ∧
   Vk.in_place_updates (m_Renderer app')
     = Vk.in_place_updates (m_Renderer app) + 1) ∧
  (texture_extent app ≠ Some (width p, height p) →
   Vk.recreations (m_Renderer app') = Vk.recreations (m_Renderer app) + 1 ∧
   Vk.in_place_updates (m_Renderer app')
     = Vk.in_place_updates (m_Renderer app)) ∧
  (∀ pixels1 pixels2 drv1 drv2,
     let final :=
       run_syncs [({| pixels := pixels1; width := 100; height := 100 |}, drv1);
                  ({| pixels := pixels2; width := 200; height := 150 |}, drv2)]
         initial in
     Vk.recreations (m_Renderer final) = 2 ∧
     Vk.in_place_updates (m_Renderer final) = 0).
Proof.
  intros Hsteps Hp app app'.
  pose proof (run_syncs_texture_inv steps Hsteps) as Hinv. fold app in Hinv.
  pose proof (Sync_spec p drv app) as Hs. cbv zeta in Hs. fold app' in Hs.
  pose proof (needs_recreation_extent app (width p) (height p) Hinv) as Hext.
  split_and!.
  - intros Hsame. apply Hext in Hsame. rewrite Hsame in Hs.
    by destruct Hs as (? & ? & _).
  - intros Hother.
    destruct (needs_recreation app (width p) (height p)).
    + by destruct Hs as (? & ? & _).
    + destruct Hother. by apply Hext.
  - intros pixels1 pixels2 drv1 drv2.
    set (p1 := {| pixels := pixels1; width := 100; height := 100 |}).
    set (p2 := {| pixels := pixels2; width := 200; height := 150 |}).
    unfold run_syncs. cbn [foldl fst snd].
    pose proof (Sync_spec p1 drv1 initial) as H1. cbv zeta in H1.
    change (needs_recreation initial (width p1) (height p1)) with true in H1.
    destruct H1 as (Hr1 & Hu1 & Hbw1 & _).
    set (app1 := exec (Sync p1 drv1) initial) in *. clearbody app1.
    pose proof (Sync_spec p2 drv2 app1) as H2. cbv zeta in H2.
    assert (Hneeds : needs_recreation app1 (width p2) (height p2) = true).
    { unfold needs_recreation. rewrite Hbw1. cbn [width height p1 p2].
      rewrite (bool_decide_eq_true_2 (200 ≠ 100)%Z) by lia.
      by rewrite orb_true_r. }
    rewrite Hneeds in H2. destruct H2 as (Hr2 & Hu2 & _).
    rewrite Hr2, Hu2, Hr1, Hu1. split; reflexivity.
Qed.

(** C3, at two 1 x 1 frames in a row: the first creates the texture, the
    second updates it in place. *)
Lemma sync_recreates_iff_size_changed_witness :
  let p := {| pixels := [1; 2; 3; 4]%Z; width := 1; height := 1 |} in
  let app := run_syncs [(p, all_granted)] initial in
  let app' := exec (Sync p all_granted) app in
  Vk.recreations (m_Renderer app') = Vk.recreations (m_Renderer app) ∧
  Vk.in_place_updates (m_Renderer app')
    = Vk.in_place_updates (m_Renderer app) + 1.
Proof.
  intros p app app'.
  refine (proj1 (sync_recreates_iff_size_changed [(p, all_granted)] p
                   all_granted _ _) _).
  - repeat constructor; unfold size_ok, CInt.INT_MAX; simpl; lia.
  - repeat constructor; unfold size_ok, CInt.INT_MAX; simpl; lia.
  - vm_compute. reflexivity.
Defined.




(** C7 fails on the code.  Two passes of the frame loop, the first
    painting a 1 x 1 frame and the second a 2 x 1 frame, every creation
    granted: the second pass destroys the view and the image of the first
    texture right after the first pass has submitted the frame that
    samples them, and before any wait.  The same holds of every
    recreation: its first calls are the destroys. *)
Theorem recreation_destroys_before_any_wait :
  let p1 := {| pixels := [1; 2; 3; 4]%Z; width := 1; height := 1 |} in
  let p2 := {| pixels := [1; 2; 3; 4; 5; 6; 7; 8]%Z; width := 2; height := 1 |} in
  let app1 := exec (RunIteration [p1] all_granted) initial in
  let app2 := exec (RunIteration [p2] all_granted) app1 in
  (∃ before rest,
     calls (m_Renderer app2) =
       before ++ [vkWaitForFences; vkCmdBindDescriptorSets 5%Z;
                  vkQueueSubmit true;
                  vkDestroyImageView 3%Z; vkDestroyImage 1%Z;
                  vkFreeMemory VK_NULL_HANDLE] ++ rest) ∧
  Vk.destroys_after_wait false (calls (m_Renderer app2)) = false ∧
  (∀ drv app,
     m_IsDirty (m_RenderHandler app) = true →
     needs_recreation app (m_Width (m_RenderHandler app))
       (m_Height (m_RenderHandler app)) = true →
     m_CefTextureView app ≠ VK_NULL_HANDLE →
     ∃ rest, calls (m_Renderer (exec (UpdateCefTexture drv) app))
             = calls (m_Renderer app)
               ++ vkDestroyImageView (m_CefTextureView app) :: rest).
Proof.
  intros p1 p2 app1 app2. split_and!.
  - exists (take 12 (calls (m_Renderer app2))),
      (drop 18 (calls (m_Renderer app2))).
    vm_compute. reflexivity.
  - vm_compute. reflexivity.
  - intros drv app Hdirty Hneeds Hview.
    rewrite UpdateCefTexture_dirty by exact Hdirty.
    rewrite Hneeds, on_handler_exec. cbn [m_Renderer].
    match goal with |- context [exec (recreate ?drv ?w ?h ?data) ?a] =>
      destruct (recreate_spec drv w h data a)
        as (_ & _ & _ & (rest & Hrest & _) & _)
    end.
    rewrite Hrest. unfold release_calls.
    rewrite bool_decide_eq_true_2 by exact Hview.
    eexists. rewrite <- !app_assoc. reflexivity.
Qed.

End bridge_claims.

(** * Further properties of the frame store *)

Section store_more.
Import RenderHandler.

Lemma swap_index_add4 k : swap_index (4 + k) = 4 + swap_index k.
Proof.
  destruct (swap_index_cases k) as [[Hm Hs]|[[Hm Hs]|[[Hm Hs]|[Hm Hs]]]];
    destruct (swap_index_cases (4 + k))
      as [[Hm' Hs']|[[Hm' Hs']|[[Hm' Hs']|[Hm' Hs']]]];
    mod4 k; mod4 (4 + k); lia.
Qed.

Lemma length_bgra_to_rgba l : length (bgra_to_rgba l) = length l.
Proof.
  induction l as [l IH] using (induction_ltof1 _ (@length _)).
  unfold ltof in IH.
  destruct l as [|b [|g [|r [|a rest]]]]; try reflexivity.
  simpl. rewrite IH by (simpl; lia). reflexivity.
Qed.

(** Byte [k] of the converted list is byte [swap_index k] of the list. *)
Lemma lookup_bgra_to_rgba l : ∀ k,
  length l mod 4 = 0 → k < length l →
  bgra_to_rgba l !! k = l !! swap_index k.
Proof.
  induction l as [l IH] using (induction_ltof1 _ (@length _)).
  unfold ltof in IH. intros k Hm Hk.
  destruct l as [|b [|g [|r [|a rest]]]]; cbn [length] in Hm, Hk;
    try (exfalso; lia); try discriminate.
  destruct k as [|[|[|[|k]]]]; try reflexivity.
  change (S (S (S (S k)))) with (4 + k). rewrite swap_index_add4.
  change (bgra_to_rgba rest !! k = rest !! swap_index k).
  apply IH; cbn [length]; [lia| |lia].
  mod4 (length rest). mod4 (S (S (S (S (length rest))))). lia.
Qed.

Lemma bgra_to_rgba_involutive l : bgra_to_rgba (bgra_to_rgba l) = l.
Proof.
  induction l as [l IH] using (induction_ltof1 _ (@length _)).
  unfold ltof in IH.
  destruct l as [|b [|g [|r [|a rest]]]]; try reflexivity.
  simpl. rewrite IH by (simpl; lia). reflexivity.
Qed.

Lemma bgra_to_rgba_zeros n : bgra_to_rgba (replicate n 0%Z) = replicate n 0%Z.
Proof.
  induction n as [n IH] using lt_wf_ind.
  destruct n as [|[|[|[|n]]]]; try reflexivity.
  simpl. rewrite IH by lia. reflexivity.
Qed.

(** On a buffer of whole pixels the loop of [GetTextureData] computes the
    pixel-wise swap. *)
Lemma GetTextureData_refines data0 s :
  length (m_Buffer s) mod 4 = 0 →
  eval (GetTextureData data0) s =
  (bgra_to_rgba (m_Buffer s), m_Width s, m_Height s).
Proof.
  intros Hm. rewrite GetTextureData_eval. do 2 f_equal.
  apply list_eq. intros k.
  destruct (decide (k < length (m_Buffer s))) as [Hk|Hk].
  - rewrite convert_loop_lookup;
      [|reflexivity | apply length_vector_resize
       |simpl; by apply loop_rounds_exact | exact Hk].
    rewrite decide_False by lia. symmetry. by apply lookup_bgra_to_rgba.
  - rewrite !lookup_ge_None_2; [done | |].
    + rewrite length_bgra_to_rgba. lia.
    + rewrite length_convert_loop, length_vector_resize. lia.
Qed.

Lemma reachable_whole_pixels s : reachable s → length (m_Buffer s) mod 4 = 0.
Proof.
  intros Hr. apply (multiple_of_four_length _ (m_Width s) (m_Height s)).
  by apply reachable_buffer_inv.
Qed.

(** X1. On every reachable store [GetTextureData] returns the stored
    dimensions and the stored frame with bytes 0 and 2 of every pixel
    exchanged; what the caller's vector held before the call has no
    influence on the result. *)
Theorem GetTextureData_is_pixelwise_swap (data0 : list uint8_t) (s : Store) :
  reachable s →
  eval (GetTextureData data0) s =
  (bgra_to_rgba (m_Buffer s), m_Width s, m_Height s).
Proof.
  intros Hr. apply GetTextureData_refines. by apply reachable_whole_pixels.
Qed.

(** X1, at a 1 x 1 frame read into a vector that already holds bytes. *)
Lemma GetTextureData_is_pixelwise_swap_witness :
  eval (GetTextureData [9; 9; 9; 9; 9; 9]%Z)
    (step (OpOnPaint [1; 2; 3; 4]%Z 1 1) (new 2 2)) =
  (bgra_to_rgba
     (m_Buffer (step (OpOnPaint [1; 2; 3; 4]%Z 1 1) (new 2 2))), 1%Z, 1%Z).
Proof.
  apply (GetTextureData_is_pixelwise_swap [9; 9; 9; 9; 9; 9]%Z
           (step (OpOnPaint [1; 2; 3; 4]%Z 1 1) (new 2 2))).
  apply reachable_step; [|apply reachable_new];
    unfold op_ok, size_ok, CInt.INT_MAX; lia.
Defined.

(** X2. The conversion undoes itself: painting a frame, reading it,
    painting what was read and reading again gives back the frame that
    was painted first, with its dimensions. *)
Theorem paint_read_round_trip w h buffer data0 data1 s :
  size_ok w h → Z.of_nat (length buffer) = (w * h * 4)%Z → reachable s →
  let s1 := exec (OnPaint buffer w h) s in
  let data := (eval (GetTextureData data0) s1).1.1 in
  eval (GetTextureData data1) (exec (OnPaint data w h) s1) = (buffer, w, h).
Proof.
  intros Hs Hlen Hr s1 data.
  assert (Hr1 : reachable s1)
    by (apply (reachable_step (OpOnPaint buffer w h)); done).
  assert (Hb1 : m_Buffer s1 = buffer)
    by (apply OnPaint_buffer; [done..|by apply reachable_buffer_inv]).
  assert (Hdata : data = bgra_to_rgba buffer).
  { subst data. rewrite GetTextureData_refines, Hb1;
      [done | by apply reachable_whole_pixels]. }
  assert (Hr2 : reachable (exec (OnPaint data w h) s1))
    by (apply (reachable_step (OpOnPaint data w h)); done).
  rewrite GetTextureData_refines by (by apply reachable_whole_pixels).
  rewrite OnPaint_buffer;
    [|done | rewrite Hdata, length_bgra_to_rgba; done
     |by apply reachable_buffer_inv].
  rewrite Hdata, bgra_to_rgba_involutive, OnPaint_exec. reflexivity.
Qed.

(** X2, at the 2 x 1 frame of the scenario. *)
Lemma paint_read_round_trip_witness :
  let buffer := [10; 20; 30; 40; 50; 60; 70; 80]%Z in
  let s1 := exec (OnPaint buffer 2 1) (new 800 600) in
  let data := (eval (GetTextureData []) s1).1.1 in
  eval (GetTextureData []) (exec (OnPaint data 2 1) s1) = (buffer, 2%Z, 1%Z).
Proof.
  apply (paint_read_round_trip 2 1 [10; 20; 30; 40; 50; 60; 70; 80]%Z [] []
           (new 800 600)).
  - unfold size_ok, CInt.INT_MAX. lia.
  - reflexivity.
  - apply reachable_new. unfold size_ok, CInt.INT_MAX. lia.
Defined.

(** X3. A store that has just been constructed is not dirty and reads
    as [width * height * 4] zero bytes with the constructed dimensions. *)
Theorem fresh_store_reads_zeros w h data0 :
  size_ok w h →
  eval IsDirty (new w h) = false ∧
  eval (GetTextureData data0) (new w h) =
    (replicate (Z.to_nat (w * h * 4)) 0%Z, w, h).
Proof.
  intros Hs. split; [reflexivity|].
  rewrite GetTextureData_refines
    by (apply reachable_whole_pixels; by apply reachable_new).
  unfold new. cbn [m_Buffer m_Width m_Height]. unfold vector_resize.
  rewrite resize_nil, bgra_to_rgba_zeros.
  pose proof (frame_bytes_ok w h Hs) as Hfb.
  replace (frame_bytes w h) with (Z.to_nat (w * h * 4)) by lia. reflexivity.
Qed.

(** X3, at the store the application constructs. *)
Lemma fresh_store_reads_zeros_witness :
  eval IsDirty (new 800 600) = false ∧
  eval (GetTextureData []) (new 800 600) =
    (replicate (Z.to_nat (800 * 600 * 4)) 0%Z, 800%Z, 600%Z).
Proof.
  apply (fresh_store_reads_zeros 800 600 []).
  unfold size_ok, CInt.INT_MAX. lia.
Defined.

(** X4. Once [OnPaint] has raised the dirty flag it stays raised through
    any operations other than [ClearDirty]: reads, resizes and further
    paints never lose the notification. *)
Theorem dirty_until_cleared (ops : list Op) buffer w h (s : Store) :
  Forall (λ op, op ≠ OpClearDirty) ops →
  eval IsDirty (run ops (step (OpOnPaint buffer w h) s)) = true.
Proof.
  intros Hops.
  assert (Hstart : m_IsDirty (step (OpOnPaint buffer w h) s) = true)
    by (simpl; by rewrite OnPaint_exec).
  change (m_IsDirty (run ops (step (OpOnPaint buffer w h) s)) = true).
  generalize dependent (step (OpOnPaint buffer w h) s).
  induction ops as [|op ops IH]; intros s1 Hs1; [exact Hs1|].
  inversion_clear Hops as [|? ? Hop Hops'].
  change (run (op :: ops) s1) with (run ops (step op s1)).
  apply IH; [exact Hops'|].
  destruct op as [|buffer' w' h'|data| | |w' h']; simpl; try done.
  - by rewrite OnPaint_exec.
  - by rewrite GetTextureData_frame.
Qed.

(** X4, at a paint followed by a read, a resize and a query. *)
Lemma dirty_until_cleared_witness :
  eval IsDirty
    (run [OpGetTextureData []; OpResize 3 2; OpIsDirty; OpGetViewRect]
       (step (OpOnPaint [1; 2; 3; 4]%Z 1 1) (new 2 2))) = true.
Proof.
  apply (dirty_until_cleared
           [OpGetTextureData []; OpResize 3 2; OpIsDirty; OpGetViewRect]).
  repeat constructor; discriminate.
Defined.

(** X5. A paint of zero width or zero height empties the store: whatever
    buffer comes with it, the next read returns no bytes and the painted
    dimensions, and the dirty flag is raised all the same. *)
Theorem empty_frame_empties_store w h buffer data0 s :
  w = 0%Z ∨ h = 0%Z → reachable s →
  let s' := exec (OnPaint buffer w h) s in
  eval (GetTextureData data0) s' = ([], w, h) ∧ eval IsDirty s' = true.
Proof.
  intros Hzero Hr s'.
  assert (Hs : size_ok w h) by (unfold size_ok, CInt.INT_MAX; nia).
  assert (Hr' : reachable s')
    by (apply (reachable_step (OpOnPaint buffer w h)); done).
  assert (Hlen : length (m_Buffer s') = 0).
  { pose proof (reachable_buffer_inv s' Hr') as Hinv. unfold buffer_inv in Hinv.
    subst s'. rewrite OnPaint_exec in Hinv |- *. cbn [m_Buffer m_Width m_Height] in *.
    nia. }
  split.
  - rewrite GetTextureData_refines by (by rewrite Hlen).
    destruct (m_Buffer s') eqn:Hb; [|discriminate].
    subst s'. rewrite OnPaint_exec. reflexivity.
  - subst s'. by rewrite OnPaint_exec.
Qed.

(** X5, at a 0 x 600 paint over the 800 x 600 store. *)
Lemma empty_frame_empties_store_witness :
  let s' := exec (OnPaint [1; 2; 3]%Z 0 600) (new 800 600) in
  eval (GetTextureData [7]%Z) s' = ([], 0%Z, 600%Z) ∧ eval IsDirty s' = true.
Proof.
  apply (empty_frame_empties_store 0 600 [1; 2; 3]%Z [7]%Z (new 800 600)).
  - by left.
  - apply reachable_new. unfold size_ok, CInt.INT_MAX. lia.
Defined.

End store_more.

(** * Further properties of the texture upload and the frame loop *)

Section loop_invariants.
Import App Loop.

Lemma UpdateCefTexture_leaves_clean drv app :
  m_IsDirty (m_RenderHandler (exec (UpdateCefTexture drv) app)) = false.
Proof.
  destruct (m_IsDirty (m_RenderHandler app)) eqn:Hd.
  - rewrite UpdateCefTexture_dirty by exact Hd.
    rewrite on_handler_exec. reflexivity.
  - by rewrite UpdateCefTexture_clean.
Qed.

(** X6. [UpdateCefTexture] consumes the frame: whatever it did, the dirty
    flag is down afterwards, and calling it again before the next paint
    changes nothing and makes no Vulkan call. *)
Theorem UpdateCefTexture_twice (drv1 drv2 : DriverAnswers) (app : Application) :
  let app1 := exec (UpdateCefTexture drv1) app in
  eval (on_handler RenderHandler.IsDirty) app1 = false ∧
  exec (UpdateCefTexture drv2) app1 = app1.
Proof.
  intros app1.
  pose proof (UpdateCefTexture_leaves_clean drv1 app) as Hclean. fold app1 in Hclean.
  split.
  - unfold on_handler, eval. simpl. exact Hclean.
  - by apply UpdateCefTexture_clean.
Qed.

(** The shape of one pass: the paints, the texture update, then the three
    kinds of frame call. *)
Lemma RunIteration_exec pending drv app :
  let app2 := exec (UpdateCefTexture drv) (exec (CefDoMessageLoopWork pending) app) in
  exec (RunIteration pending drv) app =
  exec (on_renderer VulkanRenderer.EndFrame)
    (exec (on_renderer (VulkanRenderer.RenderDrawData
                          (if bool_decide (m_CefDescriptorSet app2 ≠ VK_NULL_HANDLE)
                           then [m_CefDescriptorSet app2] else [])))
       (exec (on_renderer VulkanRenderer.BeginFrame) app2)).
Proof.
  intros app2. unfold RunIteration. rewrite !exec_bind. fold app2.
  set (app3 := exec (on_renderer VulkanRenderer.BeginFrame) app2).
  assert (Hds : m_CefDescriptorSet app3 = m_CefDescriptorSet app2)
    by (subst app3; by rewrite on_renderer_exec).
  assert (Hui : exec RenderUI app3 = app3)
    by (unfold RenderUI; unfold_state; by case_bool_decide).
  assert (Hdrawn : eval RenderUI app3 =
            if bool_decide (m_CefDescriptorSet app2 ≠ VK_NULL_HANDLE)
            then [m_CefDescriptorSet app2] else [])
    by (rewrite <- Hds; unfold RenderUI; unfold_state; by case_bool_decide).
  by rewrite Hui, Hdrawn.
Qed.

(** An invariant of the application that survives the paints, both
    branches of the update and the frame calls holds after any number of
    passes. *)
Section invariant.
Variable I : Application → Prop.
Hypothesis I_handler :
  ∀ A (m : State CefRenderHandlerImpl A) app, I app → I (exec (on_handler m) app).
Hypothesis I_recreate :
  ∀ drv w h data app, I app → I (exec (recreate drv w h data) app).
Hypothesis I_update :
  ∀ image w h data app,
    I app →
    I (exec (on_renderer (VulkanRenderer.UpdateTextureImage image w h data)) app).
Hypothesis I_call :
  ∀ c app, is_frame_call c = true → I app → I (exec (on_renderer (Vk.call c)) app).

Lemma UpdateCefTexture_invariant drv app : I app → I (exec (UpdateCefTexture drv) app).
Proof.
  intros HI. destruct (m_IsDirty (m_RenderHandler app)) eqn:Hd.
  - rewrite UpdateCefTexture_dirty by exact Hd. apply I_handler.
    destruct (needs_recreation _ _ _); [by apply I_recreate | by apply I_update].
  - by rewrite UpdateCefTexture_clean.
Qed.

Lemma RunIteration_invariant pending drv app :
  I app → I (exec (RunIteration pending drv) app).
Proof.
  intros HI. rewrite RunIteration_exec.
  apply (I_call (vkQueueSubmit true)); [done|].
  set (app3 := exec (on_renderer VulkanRenderer.BeginFrame) _).
  assert (H3 : I app3).
  { subst app3. apply (I_call vkWaitForFences); [done|].
    apply UpdateCefTexture_invariant. by apply I_handler. }
  case_bool_decide.
  - by apply (I_call (vkCmdBindDescriptorSets _)).
  - assert (Hnil : exec (on_renderer (VulkanRenderer.RenderDrawData [])) app3 = app3)
      by (rewrite on_renderer_exec; by destruct app3).
    by rewrite Hnil.
Qed.

Lemma run_iterations_invariant passes app :
  I app → I (run_iterations passes app).
Proof.
  revert app. induction passes as [|pass passes IH]; intros app HI; [exact HI|].
  apply IH. by apply RunIteration_invariant.
Qed.

End invariant.

Lemma released_exec w h app :
  exec release_texture (exec (set_BrowserSize w h) app) =
  {| m_Renderer :=
       {| next_handle := next_handle (m_Renderer app);
          images := if bool_decide (m_CefTextureImage app ≠ VK_NULL_HANDLE)
                    then delete (m_CefTextureImage app) (images (m_Renderer app))
                    else images (m_Renderer app);
          views := if bool_decide (m_CefTextureView app ≠ VK_NULL_HANDLE)
                   then delete (m_CefTextureView app) (views (m_Renderer app))
                   else views (m_Renderer app);
          calls := calls (m_Renderer app) ++ release_calls app |};
     m_RenderHandler := m_RenderHandler app;
     m_Client := m_Client app;
     m_CefTextureImage := m_CefTextureImage app;
     m_CefTextureMemory := m_CefTextureMemory app;
     m_CefTextureView := m_CefTextureView app;
     m_CefTextureSampler := m_CefTextureSampler app;
     m_CefDescriptorSet := m_CefDescriptorSet app;
     m_BrowserWidth := w;
     m_BrowserHeight := h |}.
Proof. rewrite release_texture_exec. by destruct app. Qed.

Ltac run_app_in H :=
  cbv [exec eval when modify get_state put_state mbind state_bind mret state_ret
       fst snd next_handle images views calls
       App.m_Renderer App.m_RenderHandler App.m_Client App.m_CefTextureImage
       App.m_CefTextureMemory App.m_CefTextureView App.m_CefTextureSampler
       App.m_CefDescriptorSet App.m_BrowserWidth App.m_BrowserHeight] in H.

Ltac count_more :=
  cbv [Vk.count List.filter length Vk.is_create_image Vk.is_update_barrier
       is_add_texture is_sampler_created is_free_memory is_memory_allocated
       app].

(** The calls of [create_texture], as far as the bookkeeping below needs
    them. *)
Lemma create_texture_calls drv w h data app :
  let d := m_Renderer app in
  let app' := exec (create_texture drv w h data) app in
  let d' := m_Renderer app' in
  (1 ≤ next_handle d)%Z →
  m_CefTextureMemory app' = m_CefTextureMemory app ∧
  (1 ≤ next_handle d')%Z ∧
  ∃ rest, calls d' = calls d ++ rest ∧
    Forall frees_nothing rest ∧
    Vk.count is_add_texture rest = 1 ∧
    Vk.count Vk.is_create_image rest = 1 ∧
    (m_CefTextureSampler app ≠ VK_NULL_HANDLE →
     m_CefTextureSampler app' = m_CefTextureSampler app ∧
     Vk.count is_sampler_created rest = 0) ∧
    (m_CefTextureSampler app = VK_NULL_HANDLE →
     Vk.count is_sampler_created rest =
       if bool_decide (m_CefTextureSampler app' ≠ VK_NULL_HANDLE) then 1 else 0).
Proof.
  destruct app as [[nh imgs vws log] hd cl img mem vw smp ds bw bh].
  destruct drv as [[] [] [] []]; run_app; intros Hnh;
    case_bool_decide as Hsmp; (split; [reflexivity|]); (split; [lia|]);
    (eexists; split; [rewrite <- ?app_assoc; reflexivity|]);
    (split; [repeat constructor|]);
    (split; [reflexivity|]); (split; [reflexivity|]);
    (split; [intros Hs; try done|intros Hs; try done]);
    count_more; unfold VK_NULL_HANDLE in *;
    rewrite ?bool_decide_eq_true_2 by lia;
    rewrite ?bool_decide_eq_false_2 by lia; done.
Qed.

(** What is live after [create_texture] on a device where nothing was. *)
Lemma create_texture_live drv w h data app :
  (1 ≤ next_handle (m_Renderer app))%Z →
  (∀ k, images (m_Renderer app) !! k = None) →
  (∀ k, views (m_Renderer app) !! k = None) →
  holds_all_live (exec (create_texture drv w h data) app).
Proof.
  destruct app as [[nh imgs vws log] hd cl img mem vw smp ds bw bh].
  unfold holds_all_live.
  destruct drv as [[] [] [] []]; run_app; intros Hnh Himgs Hvws;
    case_bool_decide; cbv [App.m_Renderer App.m_CefTextureImage
                           App.m_CefTextureView next_handle images views];
    unfold VK_NULL_HANDLE;
    (split; [lia|]);
    (split; intros k [x Hx];
       rewrite ?lookup_delete, ?lookup_insert in Hx;
       repeat case_decide; simplify_eq;
       try (by rewrite ?Himgs, ?Hvws in Hx); split; lia).
Qed.

Lemma call_exec c d :
  exec (Vk.call c) d =
  {| next_handle := next_handle d; images := images d; views := views d;
     calls := calls d ++ [c] |}.
Proof. reflexivity. Qed.

Lemma holds_all_live_invariant passes :
  holds_all_live (run_iterations passes initial).
Proof.
  apply run_iterations_invariant.
  - intros A m app Hlive. by rewrite on_handler_exec.
  - intros drv w h data app (Hnh & Himgs & Hvws).
    rewrite recreate_exec, released_exec.
    apply create_texture_live; cbn [m_Renderer next_handle images views].
    + exact Hnh.
    + intros k. apply eq_None_not_Some. intros Hk. case_bool_decide as Himg.
      * destruct (decide (k = m_CefTextureImage app)) as [->|Hne].
        -- rewrite lookup_delete_eq in Hk. by destruct Hk.
        -- rewrite lookup_delete_ne in Hk by done. by destruct (Himgs k Hk).
      * destruct (Himgs k Hk) as [-> Hnull]. done.
    + intros k. apply eq_None_not_Some. intros Hk. case_bool_decide as Hvw.
      * destruct (decide (k = m_CefTextureView app)) as [->|Hne].
        -- rewrite lookup_delete_eq in Hk. by destruct Hk.
        -- rewrite lookup_delete_ne in Hk by done. by destruct (Hvws k Hk).
      * destruct (Hvws k Hk) as [-> Hnull]. done.
  - intros image w h data app (Hnh & Himgs & Hvws).
    rewrite on_renderer_exec. unfold holds_all_live.
    cbn [m_Renderer m_CefTextureImage m_CefTextureView].
    destruct (UpdateTextureImage_spec image w h data (m_Renderer app))
      as (_ & -> & -> & ->). done.
  - intros c app _ Hlive. by rewrite on_renderer_exec, call_exec.
  - split_and!; [done|intros k Hk..];
      cbv [initial Vk.initial App.m_Renderer images views] in Hk;
      rewrite lookup_empty in Hk; by destruct Hk.
Qed.

(** X7. After any number of passes of the frame loop, with any frames
    and any driver answers, the only image live on the device is the one
    [m_CefTextureImage] names and the only live view the one
    [m_CefTextureView] names: a recreation never leaves an older image or
    view behind, and a live handle is never null. *)
Theorem one_texture_live (passes : list (list Paint * DriverAnswers)) :
  let app := run_iterations passes initial in
  (∀ k, is_Some (images (m_Renderer app) !! k) →
        k = m_CefTextureImage app ∧ k ≠ VK_NULL_HANDLE) ∧
  (∀ k, is_Some (views (m_Renderer app) !! k) →
        k = m_CefTextureView app ∧ k ≠ VK_NULL_HANDLE).
Proof.
  intros app. by destruct (holds_all_live_invariant passes) as (_ & ? & ?).
Qed.

Lemma count_frame_call p c :
  is_frame_call c = true →
  (∀ c', is_frame_call c' = true → p c' = false) →
  ∀ log, Vk.count p (log ++ [c]) = Vk.count p log.
Proof.
  intros Hc Hp log. rewrite count_app. unfold Vk.count at 2. simpl.
  rewrite (Hp c Hc). simpl. lia.
Qed.

Lemma bookkeeping_invariant passes :
  bookkeeping (run_iterations passes initial).
Proof.
  apply run_iterations_invariant.
  - intros A m app Hb. by rewrite on_handler_exec.
  - intros drv w h data app (Hnh & Hmem & Hfree & Hsmp & Hds).
    rewrite recreate_exec, released_exec.
    match goal with |- bookkeeping (exec _ ?a) => set (app1 := a) end.
    assert (Hcalls1 : calls (m_Renderer app1)
                      = calls (m_Renderer app) ++ release_calls app) by done.
    assert (Hnh1 : next_handle (m_Renderer app1) = next_handle (m_Renderer app))
      by done.
    assert (Hmem1 : m_CefTextureMemory app1 = m_CefTextureMemory app) by done.
    assert (Hsmp1 : m_CefTextureSampler app1 = m_CefTextureSampler app) by done.
    clearbody app1.
    destruct (create_texture_calls drv w h data app1)
      as (Hmem' & Hnh' & rest & Hcalls & Hfree' & Hadd & Hcreate & Hkeep & Hnew);
      [by rewrite Hnh1|].
    unfold bookkeeping, Vk.recreations.
    rewrite Hmem', Hmem1, Hcalls, Hcalls1. rewrite Hsmp1 in Hkeep, Hnew.
    assert (Hrel : Vk.count is_sampler_created (release_calls app) = 0
                   ∧ Vk.count is_add_texture (release_calls app) = 0
                   ∧ Vk.count Vk.is_create_image (release_calls app) = 0
                   ∧ Forall frees_nothing (release_calls app)).
    { unfold release_calls. rewrite Hmem.
      repeat case_bool_decide; split_and!; try reflexivity;
        repeat constructor. }
    destruct Hrel as (Hr1 & Hr2 & Hr3 & Hr4).
    rewrite !count_app, !Forall_app, Hr1, Hr2, Hr3, Hadd, Hcreate, Hds.
    unfold Vk.recreations.
    split_and!; [exact Hnh' | exact Hmem | exact Hfree | exact Hr4
                | exact Hfree' | | lia].
    destruct (decide (m_CefTextureSampler app = VK_NULL_HANDLE)) as [Hs|Hs].
    + rewrite (Hnew Hs), Hsmp, bool_decide_eq_false_2 by (by intros []). lia.
    + destruct (Hkeep Hs) as [-> ->]. rewrite Hsmp. lia.
  - intros image w h data app Hb.
    destruct app as [[nh imgs vws log] hd cl img mem vw smp ds bw bh].
    unfold bookkeeping, Vk.recreations in *. rewrite on_renderer_exec.
    run_app. run_app_in Hb. destruct Hb as (Hnh & Hmem & Hfree & Hsmp & Hds).
    rewrite !Forall_app, !count_app, Hsmp, Hds. count_more.
    split_and!; try done; try lia; repeat constructor.
  - intros c app Hc (Hnh & Hmem & Hfree & Hsmp & Hds).
    rewrite on_renderer_exec, call_exec. unfold bookkeeping, Vk.recreations in *.
    cbn [m_Renderer m_CefTextureMemory m_CefTextureSampler next_handle calls].
    rewrite Forall_app, !(count_frame_call _ c Hc), Hsmp, Hds;
      try (by intros []).
    split_and!; try done. repeat constructor; by destruct c.
  - split_and!; done.
Qed.



(** X10. Every image request of the texture path comes with exactly one
    new descriptor set from [ImGui_ImplVulkan_AddTexture], also when the
    image or the view could not be created, and an in-place update binds
    none: over any number of passes the two counts are equal. *)
Theorem descriptor_set_per_recreation
    (passes : list (list Paint * DriverAnswers)) :
  let app := run_iterations passes initial in
  Vk.count is_add_texture (calls (m_Renderer app))
  = Vk.recreations (m_Renderer app).
Proof.
  intros app. by destruct (bookkeeping_invariant passes) as (_ & _ & _ & _ & ?).
Qed.

End loop_invariants.

(** * Passes of the frame loop *)

Section passes.
Import App Loop.

Lemma paints_exec pending app :
  exec (CefDoMessageLoopWork pending) app =
  exec (on_handler (λ h,
          (tt, foldl (λ h p, exec (RenderHandler.OnPaint (pixels p) (width p)
                                     (height p)) h) h pending))) app.
Proof. reflexivity. Qed.

(** The handler after the paints of a pass: untouched without a paint,
    otherwise dirty and of the size of the last one. *)
Lemma paints_handler pending : ∀ h,
  let h' := foldl (λ h p, exec (RenderHandler.OnPaint (pixels p) (width p)
                                  (height p)) h) h pending in
  match last pending with
  | None => h' = h
  | Some p => m_IsDirty h' = true ∧ m_Width h' = width p ∧ m_Height h' = height p
  end.
Proof.
  induction pending as [|p pending IH] using rev_ind; intros h; [reflexivity|].
  rewrite last_snoc, foldl_app. simpl. rewrite OnPaint_exec. done.
Qed.

Lemma frame_calls_counts app2 :
  let app' :=
    exec (on_renderer VulkanRenderer.EndFrame)
      (exec (on_renderer (VulkanRenderer.RenderDrawData
                            (if bool_decide (m_CefDescriptorSet app2 ≠ VK_NULL_HANDLE)
                             then [m_CefDescriptorSet app2] else [])))
         (exec (on_renderer VulkanRenderer.BeginFrame) app2)) in
  calls (m_Renderer app') =
    calls (m_Renderer app2)
    ++ [vkWaitForFences]
    ++ (if bool_decide (m_CefDescriptorSet app2 ≠ VK_NULL_HANDLE)
        then [vkCmdBindDescriptorSets (m_CefDescriptorSet app2)] else [])
    ++ [vkQueueSubmit true] ∧
  m_BrowserWidth app' = m_BrowserWidth app2 ∧
  m_BrowserHeight app' = m_BrowserHeight app2 ∧
  m_CefTextureImage app' = m_CefTextureImage app2 ∧
  m_RenderHandler app' = m_RenderHandler app2.
Proof.
  destruct app2 as [[nh imgs vws log] hd cl img mem vw smp ds bw bh].
  cbv [App.m_CefDescriptorSet]. case_bool_decide; run_app;
    cbv [VulkanRenderer.RenderDrawData foldl exec snd Vk.call modify calls
         next_handle images views];
    rewrite <- ?app_assoc; done.
Qed.



(** X18. The paints of one pass are coalesced: however many frames the
    engine paints before [UpdateCefTexture] runs, the pass makes exactly
    one upload, a recreation or an in-place update, and the recorded
    browser size afterwards is that of the last frame painted. *)
Theorem paints_of_a_pass_coalesce
    (pending : list Paint) (p : Paint) (drv : DriverAnswers) (app : Application) :
  last pending = Some p →
  let app' := exec (RunIteration pending drv) app in
  Vk.recreations (m_Renderer app') + Vk.in_place_updates (m_Renderer app')
    = Vk.recreations (m_Renderer app) + Vk.in_place_updates (m_Renderer app) + 1 ∧
  m_BrowserWidth app' = width p ∧ m_BrowserHeight app' = height p ∧
  m_IsDirty (m_RenderHandler app') = false.
Proof.
  intros Hlast app'. subst app'. rewrite RunIteration_exec.
  set (app1 := exec (CefDoMessageLoopWork pending) app).
  assert (Hh1 : m_IsDirty (m_RenderHandler app1) = true
                ∧ m_Width (m_RenderHandler app1) = width p
                ∧ m_Height (m_RenderHandler app1) = height p).
  { subst app1. rewrite paints_exec, on_handler_exec. cbn [m_RenderHandler].
    pose proof (paints_handler pending (m_RenderHandler app)) as Hp.
    cbv zeta in Hp. by rewrite Hlast in Hp. }
  destruct Hh1 as (Hdirty & Hw & Hh).
  assert (Hd1 : m_Renderer app1 = m_Renderer app)
    by (subst app1; by rewrite paints_exec, on_handler_exec).
  assert (Hneeds : ∀ w h,
            needs_recreation app1 w h = false →
            m_BrowserWidth app1 = w ∧ m_BrowserHeight app1 = h).
  { intros w h. unfold needs_recreation. intros Hn.
    apply orb_false_elim in Hn as [Hn Hbh].
    apply orb_false_elim in Hn as [_ Hbw].
    apply bool_decide_eq_false in Hbw, Hbh.
    split; symmetry; by apply dec_stable. }
  clearbody app1.
  set (app2 := exec (UpdateCefTexture drv) app1).
  assert (H2 : Vk.recreations (m_Renderer app2) + Vk.in_place_updates (m_Renderer app2)
               = Vk.recreations (m_Renderer app1)
                 + Vk.in_place_updates (m_Renderer app1) + 1
               ∧ m_BrowserWidth app2 = width p ∧ m_BrowserHeight app2 = height p
               ∧ m_IsDirty (m_RenderHandler app2) = false).
  { subst app2. rewrite UpdateCefTexture_dirty by exact Hdirty.
    rewrite on_handler_exec.
    cbn [m_Renderer m_BrowserWidth m_BrowserHeight m_RenderHandler].
    rewrite Hw, Hh.
    destruct (needs_recreation app1 (width p) (height p)) eqn:Hn.
    - match goal with |- context [exec (recreate ?drv ?w ?h ?data) ?a] =>
        destruct (recreate_spec drv w h data a)
          as (_ & Hbw & Hbh & (rest & Hrest & Hc & Hu) & _)
      end.
      destruct (release_calls_counts app1) as [Hrc Hru].
      unfold Vk.recreations, Vk.in_place_updates.
      rewrite Hrest, !count_app, Hc, Hu, Hrc, Hru.
      split_and!; [lia | exact Hbw | exact Hbh | reflexivity].
    - rewrite on_renderer_exec.
      cbn [m_Renderer m_BrowserWidth m_BrowserHeight].
      match goal with
      | |- context [exec (VulkanRenderer.UpdateTextureImage ?i ?w ?h ?data) ?a] =>
          destruct (UpdateTextureImage_spec i w h data a)
            as ((rest & Hrest & Hc & Hu) & _)
      end.
      destruct (Hneeds _ _ Hn) as [Hbw Hbh].
      unfold Vk.recreations, Vk.in_place_updates.
      rewrite Hrest, !count_app, Hc, Hu.
      split_and!; [lia | exact Hbw | exact Hbh | reflexivity]. }
  clearbody app2. destruct H2 as (Hcount & Hbw & Hbh & Hclean).
  destruct (frame_calls_counts app2) as (Hcalls & Hbw' & Hbh' & _ & Hh').
  cbv zeta in Hcalls, Hbw', Hbh', Hh'.
  rewrite Hbw', Hbh', Hh'. split_and!; [|exact Hbw|exact Hbh|exact Hclean].
  unfold Vk.recreations, Vk.in_place_updates in *.
  rewrite Hcalls, !count_app, <- Hd1.
  assert (Hframe : ∀ l, l = [] ∨ (∃ set, l = [vkCmdBindDescriptorSets set]) →
            Vk.count Vk.is_create_image l = 0
            ∧ Vk.count Vk.is_update_barrier l = 0)
    by (intros l [->|[set ->]]; done).
  match goal with |- context [Vk.count _ (if ?c then ?a else ?b)] =>
    destruct (Hframe (if c then a else b)) as [-> ->];
      [destruct c; eauto|]
  end.
  change (Vk.count Vk.is_create_image [vkWaitForFences]) with 0.
  change (Vk.count Vk.is_update_barrier [vkWaitForFences]) with 0.
  change (Vk.count Vk.is_create_image [vkQueueSubmit true]) with 0.
  change (Vk.count Vk.is_update_barrier [vkQueueSubmit true]) with 0.
  lia.
Qed.

(** X18, at a pass in which a 1 x 1 frame and then a 2 x 1 frame are
    painted before the first texture exists. *)
Lemma paints_of_a_pass_coalesce_witness :
  let p1 := {| pixels := [1; 2; 3; 4]%Z; width := 1; height := 1 |} in
  let p2 := {| pixels := [1; 2; 3; 4; 5; 6; 7; 8]%Z; width := 2; height := 1 |} in
  let app' := exec (RunIteration [p1; p2] all_granted) initial in
  Vk.recreations (m_Renderer app') + Vk.in_place_updates (m_Renderer app')
    = Vk.recreations (m_Renderer initial)
      + Vk.in_place_updates (m_Renderer initial) + 1 ∧
  m_BrowserWidth app' = 2%Z ∧ m_BrowserHeight app' = 1%Z.
Proof.
  intros p1 p2 app'.
  destruct (paints_of_a_pass_coalesce [p1; p2] p2 all_granted initial)
    as (Hcount & Hbw & Hbh & _).
  - reflexivity.
  - split_and!; [exact Hcount | exact Hbw | exact Hbh].
Defined.

End passes.

(** * Teardown *)

Section teardown.
Import App Loop Teardown.

Lemma Cleanup_run app :
  eval Cleanup app =
    [Vulkan vkDeviceWaitIdle]
    ++ (if bool_decide (m_CefTextureSampler app ≠ VK_NULL_HANDLE)
        then [vkDestroySampler (m_CefTextureSampler app)] else [])
    ++ map Vulkan (release_calls app)
    ++ [ImGui_ImplVulkan_Shutdown; ImGui_ImplGlfw_Shutdown; ImGui_DestroyContext]
    ++ RendererCleanup
    ++ [glfwDestroyWindow; glfwTerminate; CefShutdown] ∧
  images (m_Renderer (exec Cleanup app)) =
    (if bool_decide (m_CefTextureImage app ≠ VK_NULL_HANDLE)
     then delete (m_CefTextureImage app) (images (m_Renderer app))
     else images (m_Renderer app)) ∧
  views (m_Renderer (exec Cleanup app)) =
    (if bool_decide (m_CefTextureView app ≠ VK_NULL_HANDLE)
     then delete (m_CefTextureView app) (views (m_Renderer app))
     else views (m_Renderer app)) ∧
  m_CefTextureImage (exec Cleanup app) = m_CefTextureImage app ∧
  m_CefTextureView (exec Cleanup app) = m_CefTextureView app.
Proof.
  destruct app as [[nh imgs vws log] hd cl img mem vw smp ds bw bh].
  unfold Cleanup. run_app. repeat case_bool_decide; done.
Qed.

(** X11. [Application::Cleanup] waits for the device before it destroys
    anything and submits nothing afterwards; run after any number of
    passes of the frame loop it leaves no texture image and no view live.
    The members that named them keep their values. *)
Theorem Cleanup_waits_and_releases (passes : list (list Paint * DriverAnswers)) :
  let app := run_iterations passes initial in
  let app' := exec Cleanup app in
  (∃ rest, eval Cleanup app = Vulkan vkDeviceWaitIdle :: rest ∧
           Forall (λ c, is_submit c = false) rest) ∧
  (∀ k, images (m_Renderer app') !! k = None) ∧
  (∀ k, views (m_Renderer app') !! k = None) ∧
  m_CefTextureImage app' = m_CefTextureImage app ∧
  m_CefTextureView app' = m_CefTextureView app.
Proof.
  intros app app'.
  destruct (Cleanup_run app) as (Hlog & Himgs & Hvws & Himg & Hvw).
  destruct (holds_all_live_invariant passes) as (_ & Hli & Hlv).
  fold app in Hli, Hlv. subst app'.
  split_and!; [| | |exact Himg|exact Hvw].
  - eexists. split; [exact Hlog|]. clear Hlog Himgs Hvws.
    rewrite !Forall_app. split_and!.
    + case_bool_decide; repeat constructor.
    + apply Forall_fmap. unfold release_calls.
      repeat case_bool_decide; repeat constructor.
    + repeat constructor.
    + repeat constructor.
    + repeat constructor.
  - intros k. rewrite Himgs. apply eq_None_not_Some. intros Hk.
    case_bool_decide as Hheld.
    + destruct (decide (k = m_CefTextureImage app)) as [->|Hne].
      * rewrite lookup_delete_eq in Hk. by destruct Hk.
      * rewrite lookup_delete_ne in Hk by done. by destruct (Hli k Hk).
    + by destruct (Hli k Hk) as [-> Hnull].
  - intros k. rewrite Hvws. apply eq_None_not_Some. intros Hk.
    case_bool_decide as Hheld.
    + destruct (decide (k = m_CefTextureView app)) as [->|Hne].
      * rewrite lookup_delete_eq in Hk. by destruct Hk.
      * rewrite lookup_delete_ne in Hk by done. by destruct (Hlv k Hk).
    + by destruct (Hlv k Hk) as [-> Hnull].
Qed.

End teardown.

(** * The device queries *)

Section memory_type.
Import Memory.

Lemma shift_mask i :
  (0 ≤ i < 32)%Z → CInt.to_uint32 (CInt.wrap (Z.shiftl 1 i)) = (2 ^ i)%Z.
Proof.
  intros Hi. rewrite Z.shiftl_1_l.
  destruct (decide (i = 31%Z)) as [->|Hne]; [reflexivity|].
  assert (Hpow : (0 < 2 ^ i ≤ 2 ^ 30)%Z).
  { split; [apply Z.pow_pos_nonneg; lia|apply Z.pow_le_mono_r; lia]. }
  rewrite wrap_in_range
    by (unfold CInt.in_range, CInt.INT_MIN, CInt.INT_MAX; lia).
  apply to_uint32_nonneg. unfold CInt.INT_MAX. lia.
Qed.

Lemma land_pow2 t i :
  (0 ≤ i)%Z → Z.land t (2 ^ i) = if Z.testbit t i then (2 ^ i)%Z else 0%Z.
Proof.
  intros Hi. apply Z.bits_inj'. intros n Hn.
  rewrite Z.land_spec, Z.pow2_bits_eqb by done.
  destruct (Z.eqb_spec i n) as [->|Hne].
  - destruct (Z.testbit t n) eqn:Ht; simpl.
    + by rewrite Z.pow2_bits_true.
    + by rewrite Z.bits_0.
  - rewrite andb_false_r. destruct (Z.testbit t i).
    + by rewrite Z.pow2_bits_false.
    + by rewrite Z.bits_0.
Qed.

Lemma filter_bit_testbit t i :
  (0 ≤ i < 32)%Z → filter_bit t i = Z.testbit t i.
Proof.
  intros Hi. unfold filter_bit. rewrite shift_mask, land_pow2 by lia.
  assert (0 < 2 ^ i)%Z by (apply Z.pow_pos_nonneg; lia).
  destruct (Z.testbit t i); simpl.
  - destruct (Z.eqb_spec (2 ^ i) 0); [lia|done].
  - reflexivity.
Qed.

Lemma has_properties_bits flags p :
  has_properties flags p = true ↔
  ∀ b, (0 ≤ b)%Z → Z.testbit p b = true → Z.testbit flags b = true.
Proof.
  unfold has_properties. rewrite Z.eqb_eq. split.
  - intros Heq b Hb Hp. rewrite <- Heq, Z.land_spec in Hp.
    by apply andb_prop in Hp as [? _].
  - intros Hall. apply Z.bits_inj'. intros n Hn. rewrite Z.land_spec.
    destruct (Z.testbit p n) eqn:Hp.
    + by rewrite (Hall n Hn Hp).
    + apply andb_false_r.
Qed.

Lemma condition_suitable t p mp i :
  (0 ≤ i < 32)%Z →
  filter_bit t i && has_properties (memoryTypes mp !!! Z.to_nat i) p = true
  ↔ suitable t p mp i.
Proof.
  intros Hi. unfold suitable.
  rewrite andb_true_iff, filter_bit_testbit, has_properties_bits by done.
  reflexivity.
Qed.

Lemma find_from_first t p mp remaining : ∀ i,
  (0 ≤ i)%Z → (i + Z.of_nat remaining ≤ 32)%Z →
  let r := find_from remaining i t p mp in
  (∀ j, (i ≤ j < i + Z.of_nat remaining)%Z → suitable t p mp j →
        suitable t p mp r ∧ (i ≤ r ≤ j)%Z) ∧
  ((∀ j, (i ≤ j < i + Z.of_nat remaining)%Z → ¬ suitable t p mp j) → r = 0%Z).
Proof.
  induction remaining as [|remaining IH]; intros i Hi Hend; simpl.
  - split; [intros j Hj; lia | done].
  - destruct (filter_bit t i && has_properties _ p) eqn:Hcond.
    + apply condition_suitable in Hcond; [|lia]. split.
      * intros j Hj _. split; [exact Hcond | lia].
      * intros Hnone. destruct (Hnone i); [lia | exact Hcond].
    + assert (Hnot : ¬ suitable t p mp i).
      { intros Hs. apply condition_suitable in Hs; [|lia]. congruence. }
      destruct (IH (i + 1)%Z) as [IHfound IHnone]; [lia..|]. split.
      * intros j Hj Hs. destruct (decide (j = i)) as [->|Hne]; [done|].
        destruct (IHfound j) as [Hr Hrange]; [lia | exact Hs|].
        split; [exact Hr | lia].
      * intros Hnone. apply IHnone. intros j Hj. apply Hnone. lia.
Qed.

(** X12. [FindMemoryType] returns the first memory type, in index order,
    that the filter allows and that has every requested property.  When
    no memory type qualifies it returns 0, the same value it returns when
    type 0 qualifies. *)
Theorem FindMemoryType_first_suitable typeFilter properties memProperties :
  (0 ≤ memoryTypeCount memProperties ≤ 32)%Z →
  let r := FindMemoryType typeFilter properties memProperties in
  (∀ j, (0 ≤ j < memoryTypeCount memProperties)%Z →
        suitable typeFilter properties memProperties j →
        suitable typeFilter properties memProperties r ∧ (0 ≤ r ≤ j)%Z) ∧
  ((∀ j, (0 ≤ j < memoryTypeCount memProperties)%Z →
         ¬ suitable typeFilter properties memProperties j) → r = 0%Z).
Proof.
  intros Hcount r. subst r. unfold FindMemoryType.
  destruct (find_from_first typeFilter properties memProperties
              (Z.to_nat (memoryTypeCount memProperties)) 0) as [Hfound Hnone];
    [lia..|].
  rewrite Z2Nat.id in Hfound, Hnone by lia. split; assumption.
Qed.

(** X12, at three memory types of which the second and third are allowed
    and only the third has both requested properties. *)
Lemma FindMemoryType_first_suitable_witness :
  let memProperties := {| memoryTypeCount := 3; memoryTypes := [7; 2; 6]%Z |} in
  FindMemoryType 6 6 memProperties = 2%Z ∧
  FindMemoryType 6 8 memProperties = 0%Z.
Proof.
  intros memProperties.
  destruct (FindMemoryType_first_suitable 6 6 memProperties) as [Hfound _];
    [simpl; lia|].
  destruct (FindMemoryType_first_suitable 6 8 memProperties) as [_ Hnone];
    [simpl; lia|].
  split; [reflexivity|].
  apply Hnone. intros j Hj [_ Hs].
  specialize (Hs 3%Z ltac:(lia) eq_refl). simpl in Hj.
  assert (Hcases : j = 0%Z ∨ j = 1%Z ∨ j = 2%Z) by lia.
  destruct Hcases as [Hj0|[Hj1|Hj2]]; subst j; vm_compute in Hs; discriminate.
Defined.

End memory_type.

Section device_selection.
Import DeviceSelection.

Lemma find_family_first bit before family after : ∀ i,
  Forall (λ f, family_ok bit f = false) before →
  family_ok bit family = true →
  find_family bit i (before ++ family :: after)
  = Some (i + Z.of_nat (length before))%Z.
Proof.
  induction before as [|f before IH]; intros i Hbefore Hok; simpl.
  - rewrite Hok. f_equal. lia.
  - inversion_clear Hbefore as [|? ? Hf Hrest]. rewrite Hf.
    rewrite IH by done. f_equal. lia.
Qed.

Lemma find_family_none bit families : ∀ i,
  Forall (λ f, family_ok bit f = false) families →
  find_family bit i families = None.
Proof.
  induction families as [|f families IH]; intros i Hall; [reflexivity|].
  inversion_clear Hall as [|? ? Hf Hrest]. simpl. rewrite Hf. by apply IH.
Qed.

(** X13. [SelectPhysicalDevice] takes the first enumerated device that
    has a queue family with the graphics bit and presentation support,
    and of that device the first such family; it then returns true with
    both members set.  When no device has such a family, and in
    particular when none is enumerated, it returns false and leaves the
    members as they were. *)
Theorem SelectPhysicalDevice_first_capable
    (bit : Z) (before after : list PhysicalDevice) (dev : PhysicalDevice)
    (fbefore fafter : list (Z * bool)) (family : Z * bool) (s : Selection) :
  Forall (λ d, Forall (λ f, family_ok bit f = false) (queueFamilies d)) before →
  queueFamilies dev = fbefore ++ family :: fafter →
  Forall (λ f, family_ok bit f = false) fbefore →
  family_ok bit family = true →
  SelectPhysicalDevice bit (before ++ dev :: after) s =
    (true, {| m_PhysicalDevice := device dev;
              m_QueueFamily := Z.of_nat (length fbefore) |}) ∧
  SelectPhysicalDevice bit before s = (false, s).
Proof.
  intros Hbefore Hfam Hfbefore Hok.
  assert (Hnone : select_from bit before s = (false, s)).
  { clear Hfam. induction before as [|d before IH]; [reflexivity|].
    inversion_clear Hbefore as [|? ? Hd Hrest]. simpl.
    rewrite find_family_none by exact Hd. by apply IH. }
  split.
  - unfold SelectPhysicalDevice.
    rewrite bool_decide_eq_false_2 by (rewrite length_app; simpl; lia).
    clear Hnone. induction before as [|d before IH]; simpl.
    + rewrite Hfam, find_family_first by done. reflexivity.
    + inversion_clear Hbefore as [|? ? Hd Hrest].
      rewrite find_family_none by exact Hd. by apply IH.
  - unfold SelectPhysicalDevice. case_bool_decide; [reflexivity|exact Hnone].
Qed.

(** X13, at two devices: the first offers only a compute family and a
    graphics family without presentation, the second a transfer family
    and then a graphics family that can present. *)
Lemma SelectPhysicalDevice_first_capable_witness :
  let gpu0 := {| device := 11%Z; queueFamilies := [(2, true); (1, false)]%Z |} in
  let gpu1 := {| device := 12%Z; queueFamilies := [(4, true); (3, true); (1, true)]%Z |} in
  let s := {| m_PhysicalDevice := VK_NULL_HANDLE; m_QueueFamily := 0%Z |} in
  SelectPhysicalDevice 1 ([gpu0] ++ gpu1 :: []) s =
    (true, {| m_PhysicalDevice := 12%Z; m_QueueFamily := 1 |}) ∧
  SelectPhysicalDevice 1 [gpu0] s = (false, s).
Proof.
  intros gpu0 gpu1 s.
  apply (SelectPhysicalDevice_first_capable 1 [gpu0] [] gpu1
           [(4, true)]%Z [(1, true)]%Z (3, true)%Z s).
  - repeat constructor.
  - reflexivity.
  - repeat constructor.
  - reflexivity.
Defined.

End device_selection.

(** * Navigation and input forwarding *)

Section input.
Import App Input.
Context {F : FloatOps} (K : EventFlags).

Lemma navigation_only (ui : UiFrame F) app :
  Forall (λ c, is_navigation c = true) (navigation ui app).
Proof.
  unfold navigation. rewrite !Forall_app.
  split_and!;
    match goal with |- Forall _ (if ?c then _ else _) => destruct c end;
    repeat constructor.
Qed.

Lemma navigation_without_browser (ui : UiFrame F) app :
  GetBrowser app = None → navigation ui app = [].
Proof.
  intros Hnone. unfold navigation. rewrite Hnone. simpl.
  by rewrite !andb_false_r.
Qed.

(** X14. While the client holds no browser, [RenderUI] asks nothing of
    it: before the first [OnAfterCreated] and after an [OnBeforeClose],
    no button, hover, click, wheel or typed character produces a call. *)
Theorem no_browser_no_calls
    (ui : UiFrame F) (app : Application) (renderHandler browser : CefRefPtr)
    (before after : list Client.Event) :
  Forall (λ e, Client.is_created e = false) after →
  m_Client app = Client.run after (Client.new renderHandler) ∨
  m_Client app = Client.run (before ++ Client.EvBeforeClose browser :: after)
                   (Client.new renderHandler) →
  (RenderUI K ui app).2 = [].
Proof.
  intros Hafter Hclient.
  assert (Hnone : GetBrowser app = None).
  { unfold GetBrowser.
    change (Client.m_Browser (m_Client app) = None).
    destruct Hclient as [->| ->].
    - by apply run_stays_empty.
    - rewrite client_run_app.
      change (Client.run (Client.EvBeforeClose browser :: after) ?c)
        with (Client.run after (Client.step (Client.EvBeforeClose browser) c)).
      by apply run_stays_empty. }
  unfold RenderUI. rewrite navigation_without_browser by exact Hnone.
  rewrite Hnone. simpl. rewrite andb_false_r. by case_bool_decide.
Qed.

(** X15. Input reaches the browser only through the displayed image:
    without a descriptor set, or while the image is not hovered, every
    call [RenderUI] makes is one of the four navigation commands.  When
    the image is drawn, hovered and a browser is held, the calls are the
    navigation commands, then exactly one mouse move carrying the
    position relative to the image, then the other input events.  The
    textures drawn are those of the frame loop's [RenderUI]. *)
Theorem input_only_over_the_image (ui : UiFrame F) (app : Application) :
  let calls := (RenderUI K ui app).2 in
  (RenderUI K ui app).1 = eval App.RenderUI app ∧
  (m_CefDescriptorSet app = VK_NULL_HANDLE ∨ IsItemHovered ui = false →
   Forall (λ c, is_navigation c = true) calls) ∧
  (m_CefDescriptorSet app ≠ VK_NULL_HANDLE → IsItemHovered ui = true →
   GetBrowser app ≠ None →
   ∃ rest,
     calls = navigation ui app
             ++ SendMouseMoveEvent (mouse_event K ui) false :: rest ∧
     Forall (λ c, is_navigation c = false ∧ is_mouse_move c = false) rest).
Proof.
  intros calls. subst calls. unfold RenderUI. split_and!.
  - unfold App.RenderUI. unfold_state. by case_bool_decide.
  - intros [Hnull|Hout].
    + rewrite bool_decide_eq_false_2 by (intros Hne; by apply Hne).
      apply navigation_only.
    + case_bool_decide; [|apply navigation_only]. simpl.
      rewrite Hout. simpl. rewrite app_nil_r. apply navigation_only.
  - intros Hds Hover Hbrowser.
    rewrite bool_decide_eq_true_2 by exact Hds. simpl. rewrite Hover.
    destruct (GetBrowser app) as [b|]; [|done]. simpl.
    eexists. split; [reflexivity|].
    rewrite !Forall_app. split_and!;
      try (match goal with |- Forall _ (if ?c then _ else _) => destruct c end;
           repeat constructor).
    apply Forall_fmap, Forall_forall. intros c _. by split.
Qed.

Lemma key_events_app l1 l2 : key_events (l1 ++ l2) = key_events l1 ++ key_events l2.
Proof. unfold key_events. apply omap_app. Qed.

Lemma key_events_navigation (ui : UiFrame F) app : key_events (navigation ui app) = [].
Proof.
  unfold navigation. rewrite !key_events_app.
  repeat match goal with |- context [if ?c then _ else _] => destruct c end;
    reflexivity.
Qed.

(** X16. Typed characters are forwarded one key event each, in the order
    of the input queue, the character also as unmodified character, and
    all with the modifiers of the mouse event; a modifier bit is set
    exactly when it belongs to the flag of a key that is held. *)
Theorem typed_characters_in_order (ui : UiFrame F) (app : Application) :
  m_CefDescriptorSet app ≠ VK_NULL_HANDLE → IsItemHovered ui = true →
  GetBrowser app ≠ None →
  key_events (RenderUI K ui app).2 =
    map (λ c, {| character := c; unmodified_character := c;
                 key_modifiers := mouse_modifiers K ui |})
      (InputQueueCharacters ui) ∧
  ∀ b, Z.testbit (mouse_modifiers K ui) b =
       (KeyCtrl ui && Z.testbit (EVENTFLAG_CONTROL_DOWN K) b)
       || (KeyShift ui && Z.testbit (EVENTFLAG_SHIFT_DOWN K) b)
       || (KeyAlt ui && Z.testbit (EVENTFLAG_ALT_DOWN K) b).
Proof.
  intros Hds Hover Hbrowser. split.
  - unfold RenderUI. rewrite bool_decide_eq_true_2 by exact Hds. simpl.
    rewrite Hover. destruct (GetBrowser app) as [br|] eqn:Hb; [|done]. simpl.
    rewrite key_events_app, key_events_navigation. simpl.
    unfold forward_input. rewrite !key_events_app.
    repeat match goal with
           | |- context [key_events (if ?c then _ else _)] => destruct c
           end; simpl;
      (induction (InputQueueCharacters ui) as [|c cs IH];
         [reflexivity|simpl; f_equal; exact IH]).
  - intros b. unfold mouse_modifiers.
    destruct (KeyCtrl ui), (KeyShift ui), (KeyAlt ui); simpl;
      rewrite ?Z.lor_spec, ?Z.bits_0, ?orb_false_r; reflexivity.
Qed.

End input.

Section input_examples.
Import App Input.

(** X14, at the application before the browser exists: every button is
    pressed, the image would be hovered and clicked, and nothing is
    sent. *)
Lemma no_browser_no_calls_witness :
  let ui :=
    Build_UiFrame whole_numbers
      (* Go, Back, Forward, Reload *) true true true true
      (* URL buffer *) [104; 105]%Z
      (* image position, hovered, mouse position *) (10, 20)%Z true (15, 27)%Z
      (* ctrl, shift, alt *) false true false
      (* left clicked/released, right clicked/released *) true false false false
      (* wheel, typed characters *) 1%Z [97; 98]%Z in
  (RenderUI cef_event_flags ui initial).2 = [].
Proof.
  intros ui.
  apply (no_browser_no_calls cef_event_flags ui initial (Some 0) None [] []).
  - constructor.
  - left. reflexivity.
Defined.

(** X16, at an application that shows a texture and holds browser 7:
    shift is held while "ab" is typed over the image. *)
Lemma typed_characters_in_order_witness :
  let ui :=
    Build_UiFrame whole_numbers
      (* Go, Back, Forward, Reload *) false false false false
      (* URL buffer *) []
      (* image position, hovered, mouse position *) (10, 20)%Z true (15, 27)%Z
      (* ctrl, shift, alt *) false true false
      (* left clicked/released, right clicked/released *) false false false false
      (* wheel, typed characters *) 0%Z [97; 98]%Z in
  let app :=
    {| m_Renderer := Vk.initial;
       m_RenderHandler := RenderHandler.new 1 1;
       m_Client := Client.run [Client.EvAfterCreated (Some 7)]
                     (Client.new (Some 0));
       m_CefTextureImage := 1%Z; m_CefTextureMemory := VK_NULL_HANDLE;
       m_CefTextureView := 3%Z; m_CefTextureSampler := 4%Z;
       m_CefDescriptorSet := 5%Z;
       m_BrowserWidth := 1; m_BrowserHeight := 1 |} in
  key_events (RenderUI cef_event_flags ui app).2 =
    [{| character := 97; unmodified_character := 97; key_modifiers := 2 |};
     {| character := 98; unmodified_character := 98; key_modifiers := 2 |}].
Proof.
  intros ui app.
  destruct (typed_characters_in_order cef_event_flags ui app) as [Hkeys _].
  - discriminate.
  - reflexivity.
  - discriminate.
  - exact Hkeys.
Defined.

End input_examples.
